(** * kox: lib/swagger/paths.js

    A shallow embedding of the route-to-OpenAPI translation of
    [lib/swagger/paths.js] ([build], [buildRoutes] and the [internals]
    helpers), followed by the properties of its specification.

    JavaScript values are modelled as the code uses them:
    - a property that may hold [undefined], [null], a boolean, a number or a
      string and is consulted through truthiness or [=== null] is a [JsPrim];
    - an array or object that is either present or [null]/[undefined] is an
      [option];
    - strings are byte strings; [toLowerCase]/[toUpperCase] act on the ASCII
      letters (HTTP methods and the header names compared here are ASCII);
    - the operation map [pathObj] is a [gmap] from path to a [gmap] from
      method to operation (route paths begin with a slash, so they never
      name a member of [Object.prototype]);
    - [settings.log] appends to a diagnostic log, which holds the entries
      this file logs; the collaborators of the other modules thread the
      shared definitions store, and a JavaScript exception is the [Throw]
      result, returned with the state reached. *)

From Stdlib Require Import ZArith String Ascii List Bool.
From stdpp Require Import base option list strings gmap fin_maps.

Local Open Scope string_scope.
Local Open Scope list_scope.

Set Warnings "-register-all".

(** ** JavaScript primitives and truthiness *)

Inductive JsPrim : Type :=
| js_undefined
| js_null
| js_bool (b : bool)
| js_num (z : Z)
| js_str (s : string).

Definition string_nonempty (s : string) : bool :=
  match s with EmptyString => false | String _ _ => true end.

(** [ToBoolean] of the language, per type of value. *)
Class Truthy (A : Type) := truthy : A -> bool.

#[export] Instance truthy_prim : Truthy JsPrim := fun v =>
  match v with
  | js_undefined | js_null => false
  | js_bool b => b
  | js_num z => negb (Z.eqb z 0)
  | js_str s => string_nonempty s
  end.

#[export] Instance truthy_string : Truthy string := string_nonempty.

(** A string that may be [null]/[undefined]. *)
#[export] Instance truthy_opt_string : Truthy (option string) := fun o =>
  match o with Some s => string_nonempty s | None => false end.

(** Arrays and objects are truthy also when empty; [None] is
    [null]/[undefined]. *)
#[export] Instance truthy_opt_list {A} : Truthy (option (list A)) := fun o =>
  match o with Some _ => true | None => false end.

(** [a || b] *)
Definition js_or {A} `{Truthy A} (a b : A) : A := if truthy a then a else b.

(** [x || null] on each representation *)
Definition or_null_prim (v : JsPrim) : JsPrim := js_or v js_null.
Definition or_null {A} `{Truthy (option A)} (o : option A) : option A :=
  js_or o None.

(** ** Strings *)

Definition is_upper (c : ascii) : bool :=
  (65 <=? nat_of_ascii c)%nat && (nat_of_ascii c <=? 90)%nat.
Definition is_lower (c : ascii) : bool :=
  (97 <=? nat_of_ascii c)%nat && (nat_of_ascii c <=? 122)%nat.

Definition lower_ascii (c : ascii) : ascii :=
  if is_upper c then ascii_of_nat (nat_of_ascii c + 32) else c.
Definition upper_ascii (c : ascii) : ascii :=
  if is_lower c then ascii_of_nat (nat_of_ascii c - 32) else c.

Fixpoint map_string (f : ascii -> ascii) (s : string) : string :=
  match s with
  | EmptyString => EmptyString
  | String c r => String (f c) (map_string f r)
  end.

Definition toLowerCase : string -> string := map_string lower_ascii.
Definition toUpperCase : string -> string := map_string upper_ascii.

(** [strip_prefix p s] is [Some r] when [s = p ++ r]. *)
Fixpoint strip_prefix (p s : string) : option string :=
  match p with
  | EmptyString => Some s
  | String a p' =>
      match s with
      | String b s' => if Ascii.eqb a b then strip_prefix p' s' else None
      | EmptyString => None
      end
  end.

(** [s.indexOf(p) > -1] *)
Fixpoint includes (p s : string) : bool :=
  match strip_prefix p s with
  | Some _ => true
  | None => match s with
            | EmptyString => false
            | String _ s' => includes p s'
            end
  end.

(** [s.replace(p, '')] with a string pattern: the first occurrence of [p]
    is removed, and [s] is returned unchanged when there is none. *)
Fixpoint remove_first (p s : string) : string :=
  match strip_prefix p s with
  | Some r => r
  | None => match s with
            | EmptyString => EmptyString
            | String c s' => String c (remove_first p s')
            end
  end.

(** [s.replace(p, r)] with a string pattern and a replacement that holds no
    [$]: the first occurrence of [p] becomes [r]. *)
Fixpoint replace_first (p r s : string) : string :=
  match strip_prefix p s with
  | Some rest => r +:+ rest
  | None => match s with
            | EmptyString => EmptyString
            | String c s' => String c (replace_first p r s')
            end
  end.

(** [lines.join(sep)] *)
Definition join (sep : string) (lines : list string) : string :=
  String.concat sep lines.

(** ** Results, exceptions and the diagnostic log *)

Inductive JsError : Type :=
| TypeError (msg : string)
| SyntaxError (msg : string).

Inductive Res (A : Type) : Type :=
| Ok (a : A)
| Throw (e : JsError).
Arguments Ok {A} a.
Arguments Throw {A} e.

(** One call of [settings.log(tags, message)]. *)
Definition LogEntry : Type := (list string * string)%type.

(** ** Data model *)

(** A Joi schema as a term of its chained constructors: [Joi.string()],
    [Joi.object()] and [Joi.object({...})], [s.label(l)], [s.valid(values)],
    [s.default(v)], [s.required()], [s.optional()], [s.meta({key: value})],
    and any other base schema by kind. This file builds the two placeholders
    of [build] and otherwise hands schemas to its collaborators. *)
Inductive JoiSchema : Type :=
| Joi_string
| Joi_object (keys : option (list (string * JoiSchema)))
| Joi_label (label : string) (s : JoiSchema)
| Joi_valid (values : list string) (s : JoiSchema)
| Joi_default (value : string) (s : JoiSchema)
| Joi_required (s : JoiSchema)
| Joi_optional (s : JoiSchema)
| Joi_meta (key value : string) (s : JoiSchema)
| Joi_other (kind : string).

(** What a route may carry at [validate.query], [validate.params],
    [validate.headers] and [validate.payload]. *)
Inductive Validator : Type :=
| V_function
| V_plain (keys : list (string * JoiSchema))
| V_joi (s : JoiSchema).

#[export] Instance truthy_opt_validator : Truthy (option Validator) := fun o =>
  match o with Some _ => true | None => false end.

#[export] Instance truthy_opt_bool : Truthy (option bool) := fun o =>
  match o with Some b => b | None => false end.

(** [route.description]: absent, a string, or an array of lines. *)
Inductive Descr : Type :=
| D_undefined
| D_string (s : string)
| D_lines (lines : list string).

Definition isArray (d : Descr) : bool :=
  match d with D_lines _ => true | _ => false end.

(** A parameter object of the Parameters collaborator. [p_required] is
    [None] when the property is [undefined] or has been deleted. *)
Record Param : Type := mkParam {
  p_name : string;
  p_in : string;
  p_required : option bool;
  p_enum : option (list string);
  p_default : option string;
  p_type : option string
}.

Definition set_required (r : option bool) (item : Param) : Param :=
  {| p_name := p_name item; p_in := p_in item; p_required := r;
     p_enum := p_enum item; p_default := p_default item;
     p_type := p_type item |}.

Definition Security : Type := list (string * list string).

(** The other modules of the library and the parts of the engine this file
    calls: Properties, Parameters, Responses, Utilities, [JSON.stringify] on
    a schema and the regular-expression engine. Their data are the type
    parameters:
    - [Defs]: [definitions], [x-alt-definitions] and the two definition
      caches;
    - [Tree]: a property tree;
    - [ResponsesDecl], [StatusSchemas]: [route.responses] and
      [response.status];
    - [Responses]: the built [responses] object;
    - [PathReplacements]: [settings.pathReplacements]. *)
Class Collaborators
    (Defs Tree ResponsesDecl StatusSchemas Responses PathReplacements : Type)
    : Type := {
  emptyDefs : Defs;
  (** the empty object [{}] as a property tree *)
  emptyTree : Tree;
  responses_isEmpty : Responses -> bool;
  (** [properties.parseProperty(name, joiObj, null, parameterType,
      useDefinitions, isAlt)] *)
  parseProperty : option string -> Validator -> string -> bool -> bool ->
                  Defs -> option Tree * Defs;
  (** [Parameters.fromProperties(outProperties, parameterType)] *)
  fromProperties : option Tree -> string -> option (list Param);
  (** [responses.build(userDefinedSchemas, defaultSchema, statusSchemas,
      useDefinitions, isAlt)] *)
  responses_build : option ResponsesDecl -> option Validator ->
                    option StatusSchemas -> bool -> bool ->
                    Defs -> Responses * Defs;
  replaceInPath : string -> list string -> PathReplacements -> string;
  createId : string -> string -> string;
  toJoiObject : option Validator -> option Validator;
  hasChildren : Validator -> bool;
  JSON_stringify : option Validator -> option string;
  (** [new RegExp(pattern).test(s)] for a pattern that embeds
      metacharacters; may raise a [SyntaxError] *)
  RegExp_engine : string -> string -> Res bool
}.

Section Paths.

Context {Defs Tree ResponsesDecl StatusSchemas Responses PathReplacements : Type}
        `{C : Collaborators Defs Tree ResponsesDecl StatusSchemas Responses
                            PathReplacements}.

(** A route as handed to [build]. The code reads the property [comsumes];
    [r_consumes] is the declared [consumes] of the route descriptor. *)
Record Route : Type := mkRoute {
  r_path : string;
  r_method : string;
  r_id : option string;
  r_description : Descr;
  r_summary : option string;
  r_tags : option (list string);
  r_validate_query : option Validator;
  r_validate_params : option Validator;
  r_validate_payload : option Validator;
  r_validate_headers : option Validator;
  r_response_schema : option Validator;
  r_response_status : option StatusSchemas;
  r_consumes : option (list string);
  r_comsumes : option (list string);
  r_produces : option (list string);
  r_responses : option ResponsesDecl;
  r_payloadType : option string;
  r_security : option Security;
  r_order : JsPrim;
  r_deprecated : JsPrim;
  r_group : option (list string)
}.

(** [routeData], the element type of the argument of [buildRoutes].
    [rd_notes] is read by [buildRoutes] and never set by [build]. *)
Record RouteData : Type := mkRouteData {
  rd_path : string;
  rd_method : string;
  rd_id : option string;
  rd_description : Descr;
  rd_notes : option (list string);
  rd_summary : option string;
  rd_tags : option (list string);
  rd_queryParams : option Validator;
  rd_pathParams : option Validator;
  rd_payloadParams : option Validator;
  rd_headerParams : option Validator;
  rd_responseSchema : option Validator;
  rd_responseStatus : option StatusSchemas;
  rd_consumes : option (list string);
  rd_produces : option (list string);
  rd_responses : option ResponsesDecl;
  rd_payloadType : option string;
  rd_security : option Security;
  rd_order : JsPrim;
  rd_deprecated : JsPrim;
  rd_groups : option (list string)
}.

Record Settings : Type := mkSettings {
  st_basePath : string;
  st_pathReplacements : PathReplacements;
  st_payloadType : string;
  st_consumes : option (list string);
  st_produces : option (list string);
  st_acceptToProduce : JsPrim
}.

(** The operation object [out]. A field that is absent is [None]
    ([js_undefined], [D_undefined]). *)
Record Operation : Type := mkOperation {
  op_summary : option string;
  op_operationId : string;
  op_description : Descr;
  op_parameters : option (list Param);
  op_consumes : option (list string);
  op_produces : option (list string);
  op_tags : option (list string);
  op_security : option Security;
  op_responses : option Responses;
  op_x_order : JsPrim;
  op_deprecated : JsPrim
}.

(** The document returned by [buildRoutes]; [sw_defs] holds [definitions]
    and [x-alt-definitions]. *)
Record Swagger : Type := mkSwagger {
  sw_defs : Defs;
  sw_paths : gmap string (gmap string Operation)
}.

(** ** State and exceptions *)

Definition World : Type := (Defs * list LogEntry)%type.

Definition M (A : Type) : Type := World -> Res A * World.

Definition ret {A} (a : A) : M A := fun w => (Ok a, w).

Definition bind {A B} (m : M A) (k : A -> M B) : M B := fun w =>
  match m w with
  | (Ok a, w') => k a w'
  | (Throw e, w') => (Throw e, w')
  end.

Definition lift_res {A} (r : Res A) : M A := fun w => (r, w).

Definition lift_defs {A} (f : Defs -> A * Defs) : M A := fun w =>
  let (a, d) := f (fst w) in (Ok a, (d, snd w)).

(** [this.settings.log(tags, message)] *)
Definition log (tags : list string) (message : string) : M unit := fun w =>
  (Ok tt, (fst w, snd w ++ [(tags, message)])).

Notation "'let*' x ':=' m 'in' k" := (bind m (fun x => k))
  (at level 10, x pattern, m at level 100, k at level 200).

(** [items.forEach(f)] where [f] updates the item in place *)
Fixpoint forEach {A B} (f : A -> M B) (items : list A) : M (list B) :=
  match items with
  | [] => ret []
  | item :: rest =>
      let* item' := f item in
      let* rest' := forEach f rest in
      ret (item' :: rest')
  end.

(** ** Helpers of [internals] *)

(** [internals.getJOIObj]: [route[name]], one accessor per property name
    used by the callers. *)
Inductive Property : Type :=
| queryParams | pathParams | headerParams | payloadParams.

Definition getJOIObj (route : RouteData) (name : Property) : option Validator :=
  match name with
  | queryParams => rd_queryParams route
  | pathParams => rd_pathParams route
  | headerParams => rd_headerParams route
  | payloadParams => rd_payloadParams route
  end.

(** [routeData[property] = v] *)
Definition setJOIObj (route : RouteData) (name : Property)
    (v : option Validator) : RouteData :=
  {| rd_path := rd_path route; rd_method := rd_method route;
     rd_id := rd_id route; rd_description := rd_description route;
     rd_notes := rd_notes route; rd_summary := rd_summary route;
     rd_tags := rd_tags route;
     rd_queryParams :=
       match name with queryParams => v | _ => rd_queryParams route end;
     rd_pathParams :=
       match name with pathParams => v | _ => rd_pathParams route end;
     rd_payloadParams :=
       match name with payloadParams => v | _ => rd_payloadParams route end;
     rd_headerParams :=
       match name with headerParams => v | _ => rd_headerParams route end;
     rd_responseSchema := rd_responseSchema route;
     rd_responseStatus := rd_responseStatus route;
     rd_consumes := rd_consumes route; rd_produces := rd_produces route;
     rd_responses := rd_responses route;
     rd_payloadType := rd_payloadType route;
     rd_security := rd_security route; rd_order := rd_order route;
     rd_deprecated := rd_deprecated route; rd_groups := rd_groups route |}.

(** [internals.overload]: [priority || base] *)
Definition overload {A} `{Truthy A} (base priority : A) : A :=
  js_or priority base.

(** [internals.hasFileType], as the condition of an [if] *)
Definition hasFileType (route : RouteData) : bool :=
  match JSON_stringify (rd_payloadParams route) with
  | Some routeString =>
      truthy routeString && includes "swaggerType" routeString
  | None => false
  end.

(** Modelled from the spec: [Utilities.startsWith] is not in this file; the
    base path is stripped "if the effective path starts with it". *)
Definition startsWith (path basePath : string) : bool :=
  match strip_prefix basePath path with Some _ => true | None => false end.

(** [internals.removeBasePath] *)
Definition removeBasePath (path basePath : string)
    (pathReplacements : PathReplacements) : string :=
  if negb (String.eqb basePath "/") && startsWith path basePath then
    let path := remove_first basePath path in
    replaceInPath path ["endpoints"] pathReplacements
  else path.

(** [internals.cleanPathParameters]: [path.replace('?}', '}')] *)
Definition cleanPathParameters (path : string) : string :=
  replace_first "?}" "}" path.

(** [internals.hasContentTypeHeader], on the parameter list of [out] *)
Definition hasContentTypeHeader (parameters : list Param) : bool :=
  fold_left
    (fun out param =>
       if String.eqb (p_in param) "header"
          && String.eqb (toLowerCase (p_name param)) "content-type"
       then true else out)
    parameters false.

(** Modelled from the spec: [Utilities.hasJoiChildren] is not in this file;
    "does a schema have child properties?", which [null] has not. *)
Definition hasJoiChildren (joiObj : option Validator) : bool :=
  match joiObj with Some j => hasChildren j | None => false end.

(** Modelled from the spec: [Utilities.isFunction] is not in this file; "is
    it a callable validator". *)
Definition isFunction (v : option Validator) : bool :=
  match v with Some V_function => true | _ => false end.

Record Structures : Type := mkStructures {
  properties : Tree;
  parameters : list Param
}.

(** [getDefaultStructures] *)
Definition getDefaultStructures : Structures :=
  {| properties := emptyTree; parameters := [] |}.

(** [getSwaggerStructures] *)
Definition getSwaggerStructures (joiObj : option Validator)
    (parameterType : string) (useDefinitions isAlt : bool) : M Structures :=
  match joiObj with
  | Some j =>
      let* outProperties :=
        lift_defs (parseProperty None j parameterType useDefinitions isAlt) in
      let outParameters := fromProperties outProperties parameterType in
      ret {| properties := default emptyTree outProperties;
             parameters := default [] outParameters |}
  | None => ret {| properties := emptyTree; parameters := [] |}
  end.

(** [testParameterError] *)
Definition testParameterError (joiObj : option Validator)
    (parameterType path : string) : M unit :=
  if truthy joiObj && negb (hasJoiChildren joiObj) then
    log ["validation"; "error"]
      ("The " +:+ path +:+ " route " +:+ parameterType
       +:+ " parameter was set, but not as a Joi.object() with child properties")
  else ret tt.

(** ** The path placeholder test

    [new RegExp(`/:${item.name}($|/)`).test(path)]. When the name has no
    regular-expression metacharacter the pattern is the literal text
    [/:name] followed by the end of the input or a slash; any other pattern
    is left to the engine. *)

Definition regexp_special (c : ascii) : bool :=
  existsb (Ascii.eqb c) (list_ascii_of_string "\^$.|?*+()[]{}").

Fixpoint regexp_literal (s : string) : bool :=
  match s with
  | EmptyString => true
  | String c r => negb (regexp_special c) && regexp_literal r
  end.

Definition end_or_slash (rest : option string) : bool :=
  match rest with
  | Some EmptyString => true
  | Some (String c _) => Ascii.eqb c "/"
  | None => false
  end.

Fixpoint test_end_or_slash (lit s : string) : bool :=
  end_or_slash (strip_prefix lit s)
  || match s with
     | EmptyString => false
     | String _ s' => test_end_or_slash lit s'
     end.

Definition placeholder_test (name path : string) : Res bool :=
  if regexp_literal name then Ok (test_end_or_slash ("/:" +:+ name) path)
  else RegExp_engine ("/:" +:+ name +:+ "($|/)") path.

Definition optionalWarning (path name : string) : LogEntry :=
  (["validation"; "warning"],
   "The " +:+ path +:+ " params parameter {" +:+ name
   +:+ "} is set as optional. This will work in the UI, but is invalid in the swagger spec").

(** The body of [pathStructures.parameters.forEach] *)
Definition setRequired (path : string) (item : Param) : M Param :=
  let* item :=
    match p_required item with
    | None =>
        let* matched := lift_res (placeholder_test (p_name item) path) in
        ret (if matched : bool then set_required (Some true) item else item)
    | Some _ => ret item
    end in
  let item :=
    match p_required item with
    | Some false => set_required None item
    | _ => item
    end in
  let* _ :=
    if negb (truthy (p_required item)) then
      log (fst (optionalWarning path (p_name item)))
          (snd (optionalWarning path (p_name item)))
    else ret tt in
  ret item.

(** ** The accept header

    Modelled from the spec: [Utilities.sortFirstItem] is not in this file;
    a "stable reordering with a preferred-first element": the enum
    "reordered so the header's default value (if any) appears first,
    preserving relative order of the rest". *)
Fixpoint remove_one (x : string) (l : list string) : list string :=
  match l with
  | [] => []
  | y :: r => if String.eqb x y then r else y :: remove_one x r
  end.

Definition sortFirstItem (array : list string) (firstItem : option string)
    : list string :=
  match firstItem with
  | Some first =>
      if existsb (String.eqb first) array
      then first :: remove_one first array
      else array
  | None => array
  end.

Definition isAcceptEnum (header : Param) : bool :=
  String.eqb (toLowerCase (p_name header)) "accept"
  && match p_enum header with Some _ => true | None => false end.

(** [headerStructures.parameters.filter(...)], whose callback assigns
    [out.produces]; the result is the kept headers and [out.produces]. *)
Fixpoint filterAccept (headers : list Param) (produces : option (list string))
    : list Param * option (list string) :=
  match headers with
  | [] => ([], produces)
  | header :: rest =>
      if String.eqb (toLowerCase (p_name header)) "accept" then
        match p_enum header with
        | Some enum =>
            filterAccept rest (Some (sortFirstItem enum (p_default header)))
        | None =>
            let (kept, produces) := filterAccept rest produces in
            (header :: kept, produces)
        end
      else
        let (kept, produces) := filterAccept rest produces in
        (header :: kept, produces)
  end.

(** ** Pruning

    Modelled from the spec: [Utilities.deleteEmptyProperties] is not in this
    file; "remove every property holding an empty array, empty object, null,
    or undefined". *)
Definition prune_list {A} (o : option (list A)) : option (list A) :=
  match o with
  | Some [] => None
  | _ => o
  end.

Definition prune_prim (v : JsPrim) : JsPrim :=
  match v with
  | js_null => js_undefined
  | _ => v
  end.

Definition deleteEmptyProperties (out : Operation) : Operation :=
  {| op_summary := op_summary out;
     op_operationId := op_operationId out;
     op_description :=
       match op_description out with
       | D_lines [] => D_undefined
       | d => d
       end;
     op_parameters := prune_list (op_parameters out);
     op_consumes := prune_list (op_consumes out);
     op_produces := prune_list (op_produces out);
     op_tags := prune_list (op_tags out);
     op_security := prune_list (op_security out);
     op_responses :=
       match op_responses out with
       | Some r => if responses_isEmpty r then None else Some r
       | None => None
       end;
     op_x_order := prune_prim (op_x_order out);
     op_deprecated := prune_prim (op_deprecated out) |}.

(** ** [buildRoutes] *)

(** [Array.isArray(route.description) ? route.notes.join('<br/><br/>')
    : route.description]; reading [join] of an absent [notes] raises. *)
Definition joinDescription (route : RouteData) : Res Descr :=
  if isArray (rd_description route) then
    match rd_notes route with
    | Some notes => Ok (D_string (join "<br/><br/>" notes))
    | None => Throw (TypeError "Cannot read property 'join' of undefined")
    end
  else Ok (rd_description route).

(** The payload: the structures, and [out.consumes] after them. *)
Definition buildPayload (settings : Settings) (route : RouteData)
    (path : string) : M (Structures * option (list string)) :=
  let payloadType :=
    default "" (overload (Some (st_payloadType settings))
                         (rd_payloadType route)) in
  let payloadJoi := getJOIObj route payloadParams in
  if String.eqb (toLowerCase payloadType) "json" then
    let* payloadStructures :=
      getSwaggerStructures payloadJoi "body" true false in
    ret (payloadStructures, Some [])
  else
    let* payloadStructures :=
      if hasJoiChildren payloadJoi then
        getSwaggerStructures payloadJoi "formData" false false
      else
        let* _ :=
          testParameterError payloadJoi "payload form-urlencoded" path in
        ret getDefaultStructures in
    ret (payloadStructures, Some ["application/x-www-form-urlencoded"]).

(** User-defined [consumes]/[produces] over the discovered one *)
Definition userDefined (fromSettings fromRoute discovered : option (list string))
    : option (list string) :=
  if truthy fromSettings || truthy fromRoute
  then overload fromSettings fromRoute
  else discovered.

Definition buildPathParams (route : RouteData) (path : string) : M Structures :=
  let pathJoi := getJOIObj route pathParams in
  if hasJoiChildren pathJoi then
    let* pathStructures := getSwaggerStructures pathJoi "path" false false in
    let* items := forEach (setRequired path) (parameters pathStructures) in
    ret {| properties := properties pathStructures; parameters := items |}
  else
    let* _ := testParameterError pathJoi "params" path in
    ret getDefaultStructures.

Definition buildHeaderParams (route : RouteData) (path : string) : M Structures :=
  let headerJoi := getJOIObj route headerParams in
  if hasJoiChildren headerJoi then
    getSwaggerStructures headerJoi "header" false false
  else
    let* _ := testParameterError headerJoi "headers" path in
    ret getDefaultStructures.

Definition buildQueryParams (route : RouteData) (path : string) : M Structures :=
  let queryJoi := getJOIObj route queryParams in
  if hasJoiChildren queryJoi then
    getSwaggerStructures queryJoi "query" false false
  else
    let* _ := testParameterError queryJoi "query" path in
    ret getDefaultStructures.

(** [settings.acceptToProduce === true] *)
Definition acceptToProduce (settings : Settings) : bool :=
  match st_acceptToProduce settings with
  | js_bool true => true
  | _ => false
  end.

(** [if (this.settings.acceptToProduce === true) { ... filter ... }]: the
    header parameters and [out.produces] after it *)
Definition applyAcceptToProduce (settings : Settings) (headers : list Param)
    (produces : option (list string)) : list Param * option (list string) :=
  if acceptToProduce settings then filterAccept headers produces
  else (headers, produces).

(** The body of [routes.forEach] up to the assignment into [pathObj]: the
    path, the lower-case method and the pruned operation. *)
Definition buildRoute (settings : Settings) (route : RouteData)
    : M (string * string * Operation) :=
  let method := rd_method route in
  let operationId :=
    if truthy (rd_id route) then default "" (rd_id route)
    else createId (rd_method route) (rd_path route) in
  let path := removeBasePath (rd_path route) (st_basePath settings)
                             (st_pathReplacements settings) in
  let tags := js_or (rd_tags route) (rd_groups route) in
  let* description := lift_res (joinDescription route) in
  let security :=
    if truthy (rd_security route) then rd_security route else None in
  let* payload := buildPayload settings route path in
  let payloadStructures := fst payload in
  let consumes := snd payload in
  let consumes :=
    if hasFileType route then Some ["multipart/form-data"] else consumes in
  let consumes :=
    userDefined (st_consumes settings) (rd_consumes route) consumes in
  let produces :=
    userDefined (st_produces settings) (rd_produces route) (Some []) in
  let* pathStructures := buildPathParams route path in
  let* headerStructures := buildHeaderParams route path in
  let accepted :=
    applyAcceptToProduce settings (parameters headerStructures) produces in
  let headerParameters := fst accepted in
  let produces := snd accepted in
  let* queryStructures := buildQueryParams route path in
  let parameters :=
    [] ++ headerParameters ++ parameters pathStructures
       ++ parameters queryStructures ++ parameters payloadStructures in
  let consumes :=
    if hasContentTypeHeader parameters then None else consumes in
  let* responses :=
    lift_defs (responses_build (rd_responses route) (rd_responseSchema route)
                               (rd_responseStatus route) true false) in
  let x_order :=
    if truthy (rd_order route) then rd_order route else js_undefined in
  let deprecated :=
    match rd_deprecated route with
    | js_null => js_undefined
    | deprecated => deprecated
    end in
  ret (path, toLowerCase method,
       deleteEmptyProperties
         {| op_summary := rd_summary route;
            op_operationId := operationId;
            op_description := description;
            op_parameters := Some parameters;
            op_consumes := consumes;
            op_produces := produces;
            op_tags := tags;
            op_security := security;
            op_responses := Some responses;
            op_x_order := x_order;
            op_deprecated := deprecated |}).

(** [if (!pathObj[path]) pathObj[path] = {}; pathObj[path][method] = op] *)
Definition setOperation (pathObj : gmap string (gmap string Operation))
    (path method : string) (op : Operation)
    : gmap string (gmap string Operation) :=
  <[path := <[method := op]> (default ∅ (pathObj !! path))]> pathObj.

Fixpoint forEachRoute (settings : Settings) (routes : list RouteData)
    (pathObj : gmap string (gmap string Operation))
    : M (gmap string (gmap string Operation)) :=
  match routes with
  | [] => ret pathObj
  | route :: rest =>
      let* built := buildRoute settings route in
      forEachRoute settings rest
        (setOperation pathObj (fst (fst built)) (snd (fst built)) (snd built))
  end.

(** [buildRoutes]: fresh definitions, the log continued from [logged]. *)
Definition buildRoutes (settings : Settings) (routes : list RouteData)
    (logged : list LogEntry) : Res Swagger * list LogEntry :=
  match forEachRoute settings routes ∅ (emptyDefs, logged) with
  | (Ok pathObj, (defs, logged)) =>
      (Ok {| sw_defs := defs; sw_paths := pathObj |}, logged)
  | (Throw e, (_, logged)) => (Throw e, logged)
  end.

(** ** [build] *)

Definition hiddenModelPayload : Validator :=
  V_joi (Joi_label "Hidden Model" (Joi_object None)).

Definition hiddenModelFields : Validator :=
  V_joi (Joi_object (Some [("Hidden Model", Joi_string)])).

Definition functionWarning : LogEntry :=
  (["validation"; "warning"],
   "Using a Joi.function for a query, header or payload is not supported.").

Definition functionError : LogEntry :=
  (["validation"; "error"],
   "Using a Joi.function for a params is not supported and has been removed.").

(** The callback of the [forEach] over the four property names: the updated
    [routeData] and the entries it logs. *)
Definition swapValidator (routeData : RouteData) (property : Property)
    : RouteData * list LogEntry :=
  if isFunction (getJOIObj routeData property) then
    match property with
    | pathParams => (setJOIObj routeData property None, [functionError])
    | payloadParams =>
        (setJOIObj routeData property (Some hiddenModelPayload),
         [functionWarning])
    | _ =>
        (setJOIObj routeData property (Some hiddenModelFields),
         [functionWarning])
    end
  else
    (setJOIObj routeData property (toJoiObject (getJOIObj routeData property)),
     []).

(** The callback of [routes.map] *)
Definition toRouteData (settings : Settings) (route : Route)
    : RouteData * list LogEntry :=
  let routeData :=
    {| rd_path := replaceInPath (r_path route) ["endpoints"]
                                (st_pathReplacements settings);
       rd_method := toUpperCase (r_method route);
       rd_id := r_id route;
       rd_description := r_description route;
       rd_notes := None;
       rd_summary := r_summary route;
       rd_tags := r_tags route;
       rd_queryParams := or_null (r_validate_query route);
       rd_pathParams := or_null (r_validate_params route);
       rd_payloadParams := or_null (r_validate_payload route);
       rd_headerParams := or_null (r_validate_headers route);
       rd_responseSchema := r_response_schema route;
       rd_responseStatus := r_response_status route;
       rd_consumes := or_null (r_comsumes route);
       rd_produces := or_null (r_produces route);
       rd_responses := r_responses route;
       rd_payloadType := or_null (r_payloadType route);
       rd_security := or_null (r_security route);
       rd_order := or_null_prim (r_order route);
       rd_deprecated := or_null_prim (r_deprecated route);
       rd_groups := r_group route |} in
  fold_left
    (fun acc property =>
       let (routeData, logged) := swapValidator (fst acc) property in
       (routeData, snd acc ++ logged))
    [queryParams; pathParams; headerParams; payloadParams]
    (routeData, []).

Definition build (settings : Settings) (routes : list Route)
    : Res Swagger * list LogEntry :=
  let routesData := map (toRouteData settings) routes in
  buildRoutes settings (map fst routesData) (concat (map snd routesData)).

(** ** Reading the result *)

(** [paths[path][method]] *)
Definition operationAt (pathObj : gmap string (gmap string Operation))
    (path method : string) : option Operation :=
  pathObj !! path ≫= fun methods => methods !! method.

(** The operation a translation emits at [path] and [method], if any. *)
Definition emitted (result : Res Swagger * list LogEntry)
    (path method : string) : option Operation :=
  match fst result with
  | Ok swagger => operationAt (sw_paths swagger) path method
  | Throw _ => None
  end.

(** [pathObj[path][method] = op] for one built route *)
Definition insertBuilt (pathObj : gmap string (gmap string Operation))
    (built : string * string * Operation)
    : gmap string (gmap string Operation) :=
  setOperation pathObj (fst (fst built)) (snd (fst built)) (snd built).

(** Does a built route land on the key [path], [method]? *)
Definition sameKey (path method : string)
    (built : string * string * Operation) : Prop :=
  fst (fst built) = path /\ snd (fst built) = method.

(** [w'] continues the log of [w]. *)
Definition logExtends (w w' : World) : Prop :=
  exists entries, snd w' = snd w ++ entries.

(** [out] before pruning, from the results of the stages of [buildRoute] *)
Definition assembled (settings : Settings) (route : RouteData)
    (description : Descr)
    (payload : Structures * option (list string))
    (pathStructures headerStructures queryStructures : Structures)
    (responses : Responses) : Operation :=
  let discovered :=
    if hasFileType route then Some ["multipart/form-data"] else snd payload in
  let accepted :=
    applyAcceptToProduce settings (parameters headerStructures)
      (userDefined (st_produces settings) (rd_produces route) (Some [])) in
  let parameters :=
    fst accepted ++ parameters pathStructures
      ++ parameters queryStructures ++ parameters (fst payload) in
  {| op_summary := rd_summary route;
     op_operationId :=
       if truthy (rd_id route) then default "" (rd_id route)
       else createId (rd_method route) (rd_path route);
     op_description := description;
     op_parameters := Some parameters;
     op_consumes :=
       if hasContentTypeHeader parameters then None
       else userDefined (st_consumes settings) (rd_consumes route) discovered;
     op_produces := snd accepted;
     op_tags := js_or (rd_tags route) (rd_groups route);
     op_security :=
       if truthy (rd_security route) then rd_security route else None;
     op_responses := Some responses;
     op_x_order :=
       if truthy (rd_order route) then rd_order route else js_undefined;
     op_deprecated :=
       match rd_deprecated route with
       | js_null => js_undefined
       | deprecated => deprecated
       end |}.

(** The test inside [internals.hasContentTypeHeader] *)
Definition isContentTypeHeader (param : Param) : bool :=
  String.eqb (p_in param) "header"
  && String.eqb (toLowerCase (p_name param)) "content-type".

(** The header parameters that the accept filter keeps *)
Definition keptHeaders (settings : Settings) (headers : list Param)
    : list Param :=
  if acceptToProduce settings
  then List.filter (fun header => negb (isAcceptEnum header)) headers
  else headers.

(** A computation only appends to the log. *)
Definition appendsLog {A} (m : M A) : Prop :=
  forall w r w', m w = (r, w') -> logExtends w w'.

(** A computation returns, whatever the state. *)
Definition succeeds {A} (m : M A) : Prop :=
  forall w, exists a w', m w = (Ok a, w').

(** The entry that [testParameterError] logs *)
Definition parameterError (path parameterType : string) : LogEntry :=
  (["validation"; "error"],
   "The " +:+ path +:+ " route " +:+ parameterType
   +:+ " parameter was set, but not as a Joi.object() with child properties").

(** The entries that normalizing a route logs, by property name *)
Definition normalizationEntries (route : Route) : list LogEntry :=
  (if isFunction (r_validate_query route) then [functionWarning] else [])
  ++ (if isFunction (r_validate_params route) then [functionError] else [])
  ++ (if isFunction (r_validate_headers route) then [functionWarning] else [])
  ++ (if isFunction (r_validate_payload route) then [functionWarning] else []).

(** [overload(settings.payloadType, route.payloadType)] *)
Definition effectivePayloadType (settings : Settings) (route : RouteData)
    : string :=
  default "" (overload (Some (st_payloadType settings)) (rd_payloadType route)).

(** The path parameters that [buildRoutes] hands to its [forEach], for a
    definitions store *)
Definition derivedPathParameters (route : RouteData) (defs : Defs)
    : list Param :=
  if hasJoiChildren (rd_pathParams route) then
    match rd_pathParams route with
    | Some j =>
        default []
          (fromProperties (fst (parseProperty None j "path" false false defs))
                          "path")
    | None => []
    end
  else [].

(** Every placeholder test that [buildRoutes] makes for a route returns:
    the path parameters without [required] have a name that is literal in
    a pattern, or one whose pattern the engine accepts. *)
Definition placeholdersAccepted (settings : Settings) (route : RouteData)
    : Prop :=
  forall defs item,
    In item (derivedPathParameters route defs) ->
    p_required item = None ->
    exists matched,
      placeholder_test (p_name item)
        (removeBasePath (rd_path route) (st_basePath settings)
                        (st_pathReplacements settings))
      = Ok matched.





End Paths.

Notation "'let*' x ':=' m 'in' k" := (bind m (fun x => k))
  (at level 10, x pattern, m at level 100, k at level 200).

(** ** Sample collaborators

    A small instance of the collaborators, for running the translation on
    concrete routes: one parameter per key of an object schema (one [body]
    parameter for a body), the definitions store records the locations
    parsed with [useDefinitions], and paths are left as they are. *)
Module Sample.

Fixpoint attributes (s : JoiSchema) (item : Param) : Param :=
  match s with
  | Joi_valid values s' =>
      let item := attributes s' item in
      {| p_name := p_name item; p_in := p_in item;
         p_required := p_required item; p_enum := Some values;
         p_default := p_default item; p_type := p_type item |}
  | Joi_default value s' =>
      let item := attributes s' item in
      {| p_name := p_name item; p_in := p_in item;
         p_required := p_required item; p_enum := p_enum item;
         p_default := Some value; p_type := p_type item |}
  | Joi_required s' => set_required (Some true) (attributes s' item)
  | Joi_optional s' => set_required (Some false) (attributes s' item)
  | Joi_label _ s' | Joi_meta _ _ s' => attributes s' item
  | Joi_string => item
  | Joi_object _ =>
      {| p_name := p_name item; p_in := p_in item;
         p_required := p_required item; p_enum := p_enum item;
         p_default := p_default item; p_type := Some "object" |}
  | Joi_other kind =>
      {| p_name := p_name item; p_in := p_in item;
         p_required := p_required item; p_enum := p_enum item;
         p_default := p_default item; p_type := Some kind |}
  end.

Fixpoint keysOf (s : JoiSchema) : option (list (string * JoiSchema)) :=
  match s with
  | Joi_object keys => keys
  | Joi_label _ s' | Joi_valid _ s' | Joi_default _ s' | Joi_required s'
  | Joi_optional s' | Joi_meta _ _ s' => keysOf s'
  | _ => None
  end.

Fixpoint hasMeta (key : string) (s : JoiSchema) : bool :=
  match s with
  | Joi_meta k _ s' => String.eqb k key || hasMeta key s'
  | Joi_label _ s' | Joi_valid _ s' | Joi_default _ s' | Joi_required s'
  | Joi_optional s' => hasMeta key s'
  | _ => false
  end.

Definition schemaOf (v : Validator) : option JoiSchema :=
  match v with
  | V_function => None
  | V_plain keys => Some (Joi_object (Some keys))
  | V_joi s => Some s
  end.

Definition parse (j : Validator) : list (string * JoiSchema) :=
  default [] (schemaOf j ≫= keysOf).

Definition project (parameterType : string) (tree : list (string * JoiSchema))
    : list Param :=
  if String.eqb parameterType "body" then
    [ {| p_name := "body"; p_in := "body"; p_required := None;
         p_enum := None; p_default := None; p_type := Some "object" |} ]
  else
    map (fun kv =>
           attributes (snd kv)
             {| p_name := fst kv; p_in := parameterType; p_required := None;
                p_enum := None; p_default := None; p_type := Some "string" |})
        tree.

Definition stringify (v : option Validator) : option string :=
  match v with
  | None => Some "null"
  | Some V_function => None
  | Some j =>
      if existsb (fun kv => hasMeta "swaggerType" (snd kv)) (parse j)
      then Some "{meta:[{swaggerType:file}]}"
      else Some "{}"
  end.

#[export] Instance collaborators :
  Collaborators (list string) (list (string * JoiSchema))
                (list (string * string)) (list (string * JoiSchema))
                (list (string * string)) unit := {|
  emptyDefs := [];
  emptyTree := [];
  responses_isEmpty := fun r => match r with [] => true | _ => false end;
  parseProperty := fun _ j parameterType useDefinitions _ defs =>
    (Some (parse j), if useDefinitions then defs ++ [parameterType] else defs);
  fromProperties := fun tree parameterType =>
    option_map (project parameterType) tree;
  responses_build := fun declared _ _ _ _ defs =>
    (default [("default", "Successful")] declared, defs);
  replaceInPath := fun path _ _ => path;
  createId := fun method path => toLowerCase method +:+ path;
  toJoiObject := fun v =>
    match v with
    | Some (V_plain keys) => Some (V_joi (Joi_object (Some keys)))
    | _ => v
    end;
  hasChildren := fun j =>
    match parse j with [] => false | _ => true end;
  JSON_stringify := stringify;
  RegExp_engine := fun _ _ => Throw (SyntaxError "Invalid regular expression")
|}.

Abbreviation SampleRoute :=
  (@Route (list (string * string)) (list (string * JoiSchema))).
Abbreviation SampleSettings := (@Settings unit).
Abbreviation SampleOperation := (@Operation (list (string * string))).
Abbreviation SampleWorld := (@World (list string)).

Definition settings : SampleSettings :=
  {| st_basePath := "/"; st_pathReplacements := tt; st_payloadType := "json";
     st_consumes := None; st_produces := None;
     st_acceptToProduce := js_undefined |}.

(** [{ path, method }], every other property absent *)
Definition route (path method : string) : SampleRoute :=
  {| r_path := path; r_method := method; r_id := None;
     r_description := D_undefined; r_summary := None; r_tags := None;
     r_validate_query := None; r_validate_params := None;
     r_validate_payload := None; r_validate_headers := None;
     r_response_schema := None; r_response_status := None;
     r_consumes := None; r_comsumes := None; r_produces := None;
     r_responses := None; r_payloadType := None; r_security := None;
     r_order := js_undefined; r_deprecated := js_undefined;
     r_group := None |}.

(** [{ ...route, validate: { params, headers, query, payload } }] *)
Definition withValidate (params headers query payload : option Validator)
    (r : SampleRoute) : SampleRoute :=
  {| r_path := r_path r; r_method := r_method r; r_id := r_id r;
     r_description := r_description r; r_summary := r_summary r;
     r_tags := r_tags r;
     r_validate_query := query; r_validate_params := params;
     r_validate_payload := payload; r_validate_headers := headers;
     r_response_schema := r_response_schema r;
     r_response_status := r_response_status r;
     r_consumes := r_consumes r; r_comsumes := r_comsumes r;
     r_produces := r_produces r; r_responses := r_responses r;
     r_payloadType := r_payloadType r; r_security := r_security r;
     r_order := r_order r; r_deprecated := r_deprecated r;
     r_group := r_group r |}.

(** [{ ...route, description, consumes, produces, payloadType,
    deprecated }] *)
Definition withOptions (description : Descr)
    (consumes produces : option (list string))
    (payloadType : option string) (deprecated : JsPrim) (r : SampleRoute) : SampleRoute :=
  {| r_path := r_path r; r_method := r_method r; r_id := r_id r;
     r_description := description; r_summary := r_summary r;
     r_tags := r_tags r;
     r_validate_query := r_validate_query r;
     r_validate_params := r_validate_params r;
     r_validate_payload := r_validate_payload r;
     r_validate_headers := r_validate_headers r;
     r_response_schema := r_response_schema r;
     r_response_status := r_response_status r;
     r_consumes := consumes; r_comsumes := r_comsumes r;
     r_produces := produces; r_responses := r_responses r;
     r_payloadType := payloadType; r_security := r_security r;
     r_order := r_order r; r_deprecated := deprecated;
     r_group := r_group r |}.

(** [Joi.object({ id: Joi.string() })] *)
Definition idSchema : Validator :=
  V_joi (Joi_object (Some [("id", Joi_string)])).


(** [Joi.object({ 'Content-Type': Joi.string() })] *)
Definition contentTypeSchema : Validator :=
  V_joi (Joi_object (Some [("Content-Type", Joi_string)])).

(** [Joi.object({ name: Joi.string(), age: Joi.number() })] *)
Definition personSchema : Validator :=
  V_joi (Joi_object (Some [("name", Joi_string); ("age", Joi_other "number")])).

(** [GET /item/{id}] and [GET /item/:id], with [params: { id: string }] *)
Definition braceRoute : SampleRoute :=
  withValidate (Some idSchema) None None None (route "/item/{id}" "get").

Definition optionalRoute : SampleRoute :=
  withValidate (Some idSchema) None None None (route "/item/{id?}" "get").

Definition colonRoute : SampleRoute :=
  withValidate (Some idSchema) None None None (route "/item/:id" "get").

(** [POST /upload] declaring [consumes] and [produces] *)
Definition xmlRoute : SampleRoute :=
  withOptions D_undefined (Some ["application/xml"]) (Some ["application/xml"])
    None js_undefined (route "/upload" "post").

(** [GET /notes] whose description is an array of lines *)
Definition linesRoute : SampleRoute :=
  withOptions (D_lines ["first"; "second"]) None None None js_undefined
    (route "/notes" "get").

(** [GET /old] with [deprecated: false] *)
Definition notDeprecatedRoute : SampleRoute :=
  withOptions D_undefined None None None (js_bool false) (route "/old" "get").

(** [POST /person/:id], form encoded, with a schema at every location *)
Definition formRoute : SampleRoute :=
  withOptions (D_string "Adds a person") None None (Some "form") js_undefined
    (withValidate (Some idSchema) (Some contentTypeSchema)
       (Some (V_joi (Joi_object (Some [("verbose", Joi_other "boolean")]))))
       (Some personSchema) (route "/person/:id" "post")).

(** [GET /item] once more, in upper case and with a description *)
Definition linesFreeRoute : SampleRoute :=
  withOptions (D_string "The items, again") None None None js_undefined
    (route "/item" "GET").


(** A function validator at every location *)
Definition functionRoute : SampleRoute :=
  withValidate (Some V_function) (Some V_function) (Some V_function)
    (Some V_function) (route "/custom" "put").


(** [Get /api/items] with empty tags, a group, an order of [0],
    [deprecated: true] and the property [comsumes] *)
Definition metaRoute : SampleRoute :=
  {| r_path := "/api/items"; r_method := "Get"; r_id := None;
     r_description := D_string "Lists the items"; r_summary := None;
     r_tags := Some [];
     r_validate_query := None; r_validate_params := None;
     r_validate_payload := None; r_validate_headers := None;
     r_response_schema := None; r_response_status := None;
     r_consumes := None; r_comsumes := Some ["text/csv"];
     r_produces := Some ["text/csv"];
     r_responses := None; r_payloadType := None; r_security := None;
     r_order := js_num 0; r_deprecated := js_bool true;
     r_group := Some ["items"] |}.

(** Settings with the base path [/api] and a flag that is truthy but not
    [true] *)
Definition apiSettings : SampleSettings :=
  {| st_basePath := "/api"; st_pathReplacements := tt;
     st_payloadType := "json";
     st_consumes := Some ["application/json"]; st_produces := None;
     st_acceptToProduce := js_num 1 |}.

(** [GET /part/:id/:rev] with [params: { id: Joi.string().required(),
    rev: Joi.string().optional() }] *)
Definition flaggedRoute : SampleRoute :=
  withValidate
    (Some (V_joi (Joi_object (Some
       [("id", Joi_required Joi_string); ("rev", Joi_optional Joi_string)]))))
    None None None (route "/part/:id/:rev" "get").

(** [POST /search], form encoded, with [Joi.string()] at every location *)
Definition childlessRoute : SampleRoute :=
  withOptions D_undefined None None (Some "form") js_undefined
    (withValidate (Some (V_joi Joi_string)) (Some (V_joi Joi_string))
       (Some (V_joi Joi_string)) (Some (V_joi Joi_string))
       (route "/search" "post")).

(** The world in which [buildRoutes] starts on an empty log. *)
Definition start : SampleWorld := (emptyDefs, []).

(** [buildRoute] on the normalized form of a route *)
Definition buildOne (settings : SampleSettings) (r : SampleRoute)
    : Res (string * string * SampleOperation) * SampleWorld :=
  buildRoute settings (fst (toRouteData settings r)) start.

End Sample.

(** * Properties *)

Section Properties.

Context {Defs Tree ResponsesDecl StatusSchemas Responses PathReplacements : Type}
        `{C : Collaborators Defs Tree ResponsesDecl StatusSchemas Responses
                            PathReplacements}.

(** ** The state and exception monad *)

Lemma bind_Ok {A B} (m : M A) (k : A -> M B) (w : @World Defs) b w' :
  bind m k w = (Ok b, w') ->
  exists a w1, m w = (Ok a, w1) /\ k a w1 = (Ok b, w').
Proof.
  unfold bind. destruct (m w) as [[a|e] w1]; intros H.
  - exists a, w1. split; [reflexivity | exact H].
  - discriminate H.
Qed.

(** ** The operation map *)

Lemma operationAt_setOperation
    (pathObj : gmap string (gmap string (@Operation Responses)))
    path method op path' method' :
  operationAt (setOperation pathObj path method op) path' method' =
  if decide (path = path' /\ method = method') then Some op
  else operationAt pathObj path' method'.
Proof.
  unfold operationAt, setOperation.
  destruct (decide (path = path')) as [->|Hp].
  - rewrite lookup_insert_eq. simpl.
    destruct (decide (method = method')) as [->|Hm].
    + rewrite lookup_insert_eq.
      destruct (decide (path' = path' /\ method' = method')) as [_|[]]; auto.
    + rewrite lookup_insert_ne by exact Hm.
      destruct (decide (path' = path' /\ method = method')) as [[_ ?]|_];
        [contradiction|].
      destruct (pathObj !! path'); reflexivity.
  - rewrite lookup_insert_ne by exact Hp.
    destruct (decide (path = path' /\ method = method')) as [[? _]|_];
      [contradiction | reflexivity].
Qed.

Lemma operationAt_insertBuilt_other
    (pathObj : gmap string (gmap string (@Operation Responses)))
    built path method :
  ~ sameKey path method built ->
  operationAt (insertBuilt pathObj built) path method
  = operationAt pathObj path method.
Proof.
  intros Hk. unfold insertBuilt. rewrite operationAt_setOperation.
  destruct (decide _) as [Heq|_]; [|reflexivity].
  exfalso. apply Hk. exact Heq.
Qed.

Lemma operationAt_fold_other later :
  forall (pathObj : gmap string (gmap string (@Operation Responses)))
         path method,
  Forall (fun built => ~ sameKey path method built) later ->
  operationAt (fold_left insertBuilt later pathObj) path method
  = operationAt pathObj path method.
Proof.
  induction later as [|built later IH]; intros pathObj path method Hl; simpl.
  - reflexivity.
  - inversion Hl; subst. rewrite IH by assumption.
    apply operationAt_insertBuilt_other. assumption.
Qed.

Lemma forEachRoute_forEach settings routes : forall pathObj w,
  forEachRoute settings routes pathObj w =
  match forEach (buildRoute settings) routes w with
  | (Ok built, w') => (Ok (fold_left insertBuilt built pathObj), w')
  | (Throw e, w') => (Throw e, w')
  end.
Proof.
  induction routes as [|route rest IH]; intros pathObj w; simpl.
  - reflexivity.
  - unfold bind.
    destruct (buildRoute settings route w) as [[built|e] w1]; [|reflexivity].
    rewrite IH.
    destruct (forEach (buildRoute settings) rest w1) as [[l|e] w2];
      reflexivity.
Qed.

(** C10. When two routes of one call build to the same path key and the
    same lower-case method, and no later route does, the operation stored
    at that key is the one of the later route: the earlier one is replaced.
    The collision raises nothing and logs nothing: whenever every route
    builds, [buildRoutes] returns the document, and its log is exactly the
    log that building the routes one after the other leaves. *)
Theorem C10_last_write_wins settings routes logged built w'
    earlier between later path method op1 op2 :
  forEach (buildRoute settings) routes (emptyDefs, logged) = (Ok built, w') ->
  built = earlier ++ (path, method, op1) :: between
                  ++ (path, method, op2) :: later ->
  Forall (fun b => ~ sameKey path method b) later ->
  exists swagger,
    buildRoutes settings routes logged = (Ok swagger, snd w')
    /\ sw_defs swagger = fst w'
    /\ operationAt (sw_paths swagger) path method = Some op2.
Proof.
  intros Hrun Hbuilt Hlater.
  unfold buildRoutes. rewrite forEachRoute_forEach, Hrun.
  destruct w' as [defs lg]. eexists. split; [reflexivity|]. simpl.
  split; [reflexivity|].
  rewrite Hbuilt.
  rewrite fold_left_app. simpl. rewrite fold_left_app. simpl.
  rewrite operationAt_fold_other by assumption.
  unfold insertBuilt at 1. simpl. rewrite operationAt_setOperation.
  destruct (decide _) as [_|Hn]; [reflexivity|].
  exfalso. apply Hn. split; reflexivity.
Qed.

(** ** The stages of [buildRoute] *)

(** [buildRoute] succeeds exactly through its stages, in this order. *)
Lemma buildRoute_inv settings route w path method op w' :
  buildRoute settings route w = (Ok (path, method, op), w') ->
  path = removeBasePath (rd_path route) (st_basePath settings)
                        (st_pathReplacements settings)
  /\ method = toLowerCase (rd_method route)
  /\ exists description payload pathS headerS queryS responses w1 w2 w3 w4,
       joinDescription route = Ok description
       /\ buildPayload settings route path w = (Ok payload, w1)
       /\ buildPathParams route path w1 = (Ok pathS, w2)
       /\ buildHeaderParams route path w2 = (Ok headerS, w3)
       /\ buildQueryParams route path w3 = (Ok queryS, w4)
       /\ lift_defs (responses_build (rd_responses route)
                       (rd_responseSchema route) (rd_responseStatus route)
                       true false) w4 = (Ok responses, w')
       /\ op = deleteEmptyProperties
                 (assembled settings route description payload
                            pathS headerS queryS responses).
Proof.
  unfold buildRoute. intros H.
  apply bind_Ok in H as (description & w0 & Hd & H).
  unfold lift_res in Hd. inversion Hd; subst w0. clear Hd.
  rename H1 into Hd.
  cbv beta zeta in H.
  apply bind_Ok in H as (payload & w1 & Hpay & H). cbv beta zeta in H.
  apply bind_Ok in H as (pathS & w2 & Hpath & H). cbv beta zeta in H.
  apply bind_Ok in H as (headerS & w3 & Hhead & H). cbv beta zeta in H.
  apply bind_Ok in H as (queryS & w4 & Hquery & H). cbv beta zeta in H.
  apply bind_Ok in H as (responses & w5 & Hresp & H). cbv beta zeta in H.
  unfold ret in H. inversion H; subst. clear H.
  split; [reflexivity|]. split; [reflexivity|].
  exists description, payload, pathS, headerS, queryS, responses, w1, w2, w3, w4.
  repeat (split; [assumption|]). reflexivity.
Qed.

(** Replaces a successful run of [buildRoute] by the runs of its stages. *)
Ltac stages H Hinv :=
  apply buildRoute_inv in H
    as (_ & _ & d & pay & ps & hs & qs & rs & w1 & w2 & w3 & w4 & Hinv).

(** ** The operations of the document *)

Lemma operationAt_empty path method :
  operationAt (∅ : gmap string (gmap string (@Operation Responses)))
    path method = None.
Proof. unfold operationAt. rewrite lookup_empty. reflexivity. Qed.

Lemma forEach_buildRoute_operation settings path method op :
  forall routes built pathObj w w',
    forEach (buildRoute settings) routes w = (Ok built, w') ->
    operationAt (fold_left insertBuilt built pathObj) path method = Some op ->
    (exists route wa wb, In route routes
       /\ buildRoute settings route wa = (Ok (path, method, op), wb))
    \/ operationAt pathObj path method = Some op.
Proof.
  induction routes as [|route rest IH];
    intros built pathObj w w' Hrun Hop; simpl in Hrun.
  - unfold ret in Hrun. inversion Hrun; subst. right. exact Hop.
  - apply bind_Ok in Hrun as (b & w1 & Hb & Hrun). cbv beta in Hrun.
    apply bind_Ok in Hrun as (bs & w2 & Hbs & Hrun). cbv beta in Hrun.
    unfold ret in Hrun. inversion Hrun; subst. simpl in Hop.
    eapply IH in Hop as [(r & wa & wb & Hin & Hr)|Hop]; [| |exact Hbs].
    + left. exists r, wa, wb. split; [right; exact Hin | exact Hr].
    + unfold insertBuilt in Hop. rewrite operationAt_setOperation in Hop.
      destruct (decide _) as [[Hp Hm]|_].
      * left. exists route, w, w1. split; [left; reflexivity|].
        destruct b as [[p m] o]. simpl in *. congruence.
      * right. exact Hop.
Qed.

(** Every operation of the document of [buildRoutes] is the operation some
    route built. *)
Lemma buildRoutes_operation settings routes logged swagger logged'
    path method op :
  buildRoutes settings routes logged = (Ok swagger, logged') ->
  operationAt (sw_paths swagger) path method = Some op ->
  exists route w w',
    In route routes
    /\ buildRoute settings route w = (Ok (path, method, op), w').
Proof.
  unfold buildRoutes. rewrite forEachRoute_forEach.
  destruct (forEach (buildRoute settings) routes (emptyDefs, logged))
    as [[built|e] [defs lg]] eqn:Hrun; [|discriminate].
  intros H Hop. inversion H; subst. clear H. simpl in Hop.
  destruct (forEach_buildRoute_operation _ _ _ _ _ _ _ _ _ Hrun Hop)
    as [H|H]; [exact H|].
  rewrite operationAt_empty in H. discriminate H.
Qed.

Lemma hasContentTypeHeader_existsb parameters :
  hasContentTypeHeader parameters = existsb isContentTypeHeader parameters.
Proof.
  unfold hasContentTypeHeader.
  enough (H : forall out,
    fold_left
      (fun out param =>
         if String.eqb (p_in param) "header"
            && String.eqb (toLowerCase (p_name param)) "content-type"
         then true else out) parameters out
    = out || existsb isContentTypeHeader parameters) by apply H.
  induction parameters as [|param rest IH]; intros out; simpl.
  - rewrite orb_false_r. reflexivity.
  - rewrite IH. unfold isContentTypeHeader at 2.
    destruct (String.eqb (p_in param) "header"
              && String.eqb (toLowerCase (p_name param)) "content-type");
      simpl; [|reflexivity].
    rewrite orb_true_r. reflexivity.
Qed.

Lemma prune_list_Some {A} (l l' : list A) :
  prune_list (Some l) = Some l' -> l = l'.
Proof. destruct l; simpl; intros H; [discriminate | congruence]. Qed.

(** C7. In the document of [build], an operation whose parameter list holds
    a header parameter named [content-type], compared in lower case, has no
    [consumes] field, whatever the payload encoding, the file detection or
    a user-defined [consumes] would have put there. *)
Theorem C7_content_type_header_drops_consumes
    settings routes path method op parameters param :
  emitted (build settings routes) path method = Some op ->
  op_parameters op = Some parameters ->
  In param parameters ->
  p_in param = "header" ->
  toLowerCase (p_name param) = "content-type" ->
  op_consumes op = None.
Proof.
  unfold emitted. intros Hop Hparams Hin Hheader Hname.
  destruct (build settings routes) as [[swagger|e] logged] eqn:Hbuild;
    [|discriminate Hop].
  simpl in Hop. unfold build in Hbuild.
  destruct (buildRoutes_operation _ _ _ _ _ _ _ _ Hbuild Hop)
    as (route & w & w' & _ & Hroute).
  stages Hroute Hinv.
  destruct Hinv as (_ & _ & _ & _ & _ & _ & ->).
  simpl in Hparams. apply prune_list_Some in Hparams.
  simpl. rewrite Hparams.
  replace (hasContentTypeHeader parameters) with true; [reflexivity|].
  symmetry. rewrite hasContentTypeHeader_existsb. apply existsb_exists.
  exists param. split; [exact Hin|].
  unfold isContentTypeHeader. rewrite Hheader, Hname. reflexivity.
Qed.

(** ** The log only grows *)

Lemma logExtends_refl (w : @World Defs) : logExtends w w.
Proof. exists []. rewrite app_nil_r. reflexivity. Qed.

Lemma logExtends_trans (w1 w2 w3 : @World Defs) :
  logExtends w1 w2 -> logExtends w2 w3 -> logExtends w1 w3.
Proof.
  intros [l1 H1] [l2 H2]. exists (l1 ++ l2).
  rewrite H2, H1, app_assoc. reflexivity.
Qed.

Lemma logExtends_In (w w' : @World Defs) entry :
  logExtends w w' -> In entry (snd w) -> In entry (snd w').
Proof. intros [l ->] H. apply in_or_app. left. exact H. Qed.

Lemma appendsLog_ret {A} (a : A) : appendsLog (ret a : @M Defs A).
Proof. intros w r w' H. inversion H. apply logExtends_refl. Qed.

Lemma appendsLog_lift_res {A} (r : Res A) :
  appendsLog (lift_res r : @M Defs A).
Proof. intros w r' w' H. inversion H. apply logExtends_refl. Qed.

Lemma appendsLog_lift_defs {A} (f : Defs -> A * Defs) :
  appendsLog (lift_defs f).
Proof.
  intros w r w' H. unfold lift_defs in H.
  destruct (f (fst w)) as [a d]. inversion H. exists []. simpl.
  rewrite app_nil_r. reflexivity.
Qed.

Lemma appendsLog_log tags message :
  appendsLog (log tags message : @M Defs unit).
Proof.
  intros w r w' H. inversion H. exists [(tags, message)]. reflexivity.
Qed.

Lemma appendsLog_bind {A B} (m : @M Defs A) (k : A -> M B) :
  appendsLog m -> (forall a, appendsLog (k a)) -> appendsLog (bind m k).
Proof.
  intros Hm Hk w r w' H. unfold bind in H.
  destruct (m w) as [[a|e] w1] eqn:Hmw.
  - eapply logExtends_trans; [eapply Hm; exact Hmw | eapply Hk; exact H].
  - inversion H; subst. eapply Hm. exact Hmw.
Qed.

Lemma appendsLog_forEach {A B} (f : A -> @M Defs B) items :
  (forall item, appendsLog (f item)) -> appendsLog (forEach f items).
Proof.
  intros Hf. induction items as [|item rest IH]; simpl.
  - apply appendsLog_ret.
  - apply appendsLog_bind; [apply Hf|]. intros b.
    apply appendsLog_bind; [exact IH|]. intros bs. apply appendsLog_ret.
Qed.

Lemma appendsLog_getSwaggerStructures joiObj parameterType useDefinitions isAlt :
  appendsLog (getSwaggerStructures joiObj parameterType useDefinitions isAlt).
Proof.
  unfold getSwaggerStructures. destruct joiObj.
  - apply appendsLog_bind; [apply appendsLog_lift_defs|].
    intros t. apply appendsLog_ret.
  - apply appendsLog_ret.
Qed.

Lemma appendsLog_testParameterError joiObj parameterType path :
  appendsLog (testParameterError joiObj parameterType path).
Proof.
  unfold testParameterError.
  destruct (truthy joiObj && negb (hasJoiChildren joiObj));
    [apply appendsLog_log | apply appendsLog_ret].
Qed.

Lemma appendsLog_setRequired path item : appendsLog (setRequired path item).
Proof.
  unfold setRequired. apply appendsLog_bind.
  - destruct (p_required item); [apply appendsLog_ret|].
    apply appendsLog_bind; [apply appendsLog_lift_res|].
    intros b. apply appendsLog_ret.
  - intros item'. apply appendsLog_bind; [|intros; apply appendsLog_ret].
    match goal with |- appendsLog (if ?b then _ else _) => destruct b end;
      [apply appendsLog_log | apply appendsLog_ret].
Qed.

Lemma appendsLog_buildPayload settings route path :
  appendsLog (buildPayload settings route path).
Proof.
  unfold buildPayload.
  match goal with |- appendsLog (if ?b then _ else _) => destruct b end.
  - apply appendsLog_bind; [apply appendsLog_getSwaggerStructures|].
    intros; apply appendsLog_ret.
  - apply appendsLog_bind; [|intros; apply appendsLog_ret].
    destruct (hasJoiChildren _); [apply appendsLog_getSwaggerStructures|].
    apply appendsLog_bind; [apply appendsLog_testParameterError|].
    intros; apply appendsLog_ret.
Qed.

Lemma appendsLog_buildPathParams route path :
  appendsLog (buildPathParams route path).
Proof.
  unfold buildPathParams. destruct (hasJoiChildren _).
  - apply appendsLog_bind; [apply appendsLog_getSwaggerStructures|].
    intros s. apply appendsLog_bind; [|intros; apply appendsLog_ret].
    apply appendsLog_forEach. intros item. apply appendsLog_setRequired.
  - apply appendsLog_bind; [apply appendsLog_testParameterError|].
    intros; apply appendsLog_ret.
Qed.

Lemma appendsLog_buildHeaderParams route path :
  appendsLog (buildHeaderParams route path).
Proof.
  unfold buildHeaderParams. destruct (hasJoiChildren _).
  - apply appendsLog_getSwaggerStructures.
  - apply appendsLog_bind; [apply appendsLog_testParameterError|].
    intros; apply appendsLog_ret.
Qed.

Lemma appendsLog_buildQueryParams route path :
  appendsLog (buildQueryParams route path).
Proof.
  unfold buildQueryParams. destruct (hasJoiChildren _).
  - apply appendsLog_getSwaggerStructures.
  - apply appendsLog_bind; [apply appendsLog_testParameterError|].
    intros; apply appendsLog_ret.
Qed.

Lemma appendsLog_buildRoute settings route :
  appendsLog (buildRoute settings route).
Proof.
  unfold buildRoute.
  apply appendsLog_bind; [apply appendsLog_lift_res|]. intros d.
  apply appendsLog_bind; [apply appendsLog_buildPayload|]. intros pay.
  apply appendsLog_bind; [apply appendsLog_buildPathParams|]. intros ps.
  apply appendsLog_bind; [apply appendsLog_buildHeaderParams|]. intros hs.
  apply appendsLog_bind; [apply appendsLog_buildQueryParams|]. intros qs.
  apply appendsLog_bind; [apply appendsLog_lift_defs|]. intros rs.
  apply appendsLog_ret.
Qed.

Lemma appendsLog_forEachRoute settings routes :
  forall pathObj, appendsLog (forEachRoute settings routes pathObj).
Proof.
  induction routes as [|route rest IH]; intros pathObj; simpl.
  - apply appendsLog_ret.
  - apply appendsLog_bind; [apply appendsLog_buildRoute|].
    intros b. apply IH.
Qed.

(** The log of [buildRoutes] continues the log it starts from. *)
Lemma buildRoutes_log settings routes logged :
  exists entries, snd (buildRoutes settings routes logged) = logged ++ entries.
Proof.
  unfold buildRoutes.
  destruct (forEachRoute settings routes ∅ (emptyDefs, logged))
    as [r [defs lg]] eqn:H.
  apply appendsLog_forEachRoute in H as [l Hl]. simpl in Hl.
  exists l. destruct r; simpl; exact Hl.
Qed.

(** ** Normalization of the validators *)

(** The cases of the four validators of a route under [toRouteData] *)
Ltac validators route :=
  destruct route as [? ? ? ? ? ? vq vp vl vh ? ? ? ? ? ? ? ? ? ? ?];
  unfold toRouteData; simpl;
  destruct vq as [[]|], vp as [[]|], vl as [[]|], vh as [[]|].

(** The entries that normalizing one route logs, in the order of the
    property names: query, path, header, payload. *)
Lemma toRouteData_log settings route :
  snd (toRouteData settings route)
  = (if isFunction (r_validate_query route) then [functionWarning] else [])
    ++ (if isFunction (r_validate_params route) then [functionError] else [])
    ++ (if isFunction (r_validate_headers route) then [functionWarning] else [])
    ++ (if isFunction (r_validate_payload route) then [functionWarning] else []).
Proof. validators route; reflexivity. Qed.

Lemma toRouteData_function_query settings route :
  r_validate_query route = Some V_function ->
  rd_queryParams (fst (toRouteData settings route)) = Some hiddenModelFields.
Proof.
  validators route; simpl; intros H; try discriminate H; reflexivity.
Qed.

Lemma toRouteData_function_headers settings route :
  r_validate_headers route = Some V_function ->
  rd_headerParams (fst (toRouteData settings route)) = Some hiddenModelFields.
Proof.
  validators route; simpl; intros H; try discriminate H; reflexivity.
Qed.

Lemma toRouteData_function_payload settings route :
  r_validate_payload route = Some V_function ->
  rd_payloadParams (fst (toRouteData settings route)) = Some hiddenModelPayload.
Proof.
  validators route; simpl; intros H; try discriminate H; reflexivity.
Qed.

Lemma toRouteData_function_params settings route :
  r_validate_params route = Some V_function ->
  rd_pathParams (fst (toRouteData settings route)) = None.
Proof.
  validators route; simpl; intros H; try discriminate H; reflexivity.
Qed.

(** C5. [build] hands to [buildRoutes] the normalized form of every route
    and logs the entries of its normalization. In that form a function
    validator at query or headers is the schema
    [Joi.object({ 'Hidden Model': Joi.string() })] and one at payload is
    [Joi.object().label('Hidden Model')], each with the entry tagged
    [validation], [warning] in the log; one at params is [null], with the
    entry tagged [validation], [error] in the log. *)
Theorem C5_function_validators_replaced settings routes route :
  In route routes ->
  let routeData := fst (toRouteData settings route) in
  let entries := snd (toRouteData settings route) in
  build settings routes
  = buildRoutes settings (map (fun r => fst (toRouteData settings r)) routes)
      (concat (map (fun r => snd (toRouteData settings r)) routes))
  /\ In routeData (map (fun r => fst (toRouteData settings r)) routes)
  /\ (forall entry, In entry entries ->
        In entry (snd (build settings routes)))
  /\ (r_validate_query route = Some V_function ->
        rd_queryParams routeData
        = Some (V_joi (Joi_object (Some [("Hidden Model", Joi_string)])))
        /\ In (["validation"; "warning"],
               "Using a Joi.function for a query, header or payload is not supported.")
             entries)
  /\ (r_validate_headers route = Some V_function ->
        rd_headerParams routeData
        = Some (V_joi (Joi_object (Some [("Hidden Model", Joi_string)])))
        /\ In (["validation"; "warning"],
               "Using a Joi.function for a query, header or payload is not supported.")
             entries)
  /\ (r_validate_payload route = Some V_function ->
        rd_payloadParams routeData
        = Some (V_joi (Joi_label "Hidden Model" (Joi_object None)))
        /\ In (["validation"; "warning"],
               "Using a Joi.function for a query, header or payload is not supported.")
             entries)
  /\ (r_validate_params route = Some V_function ->
        rd_pathParams routeData = None
        /\ In (["validation"; "error"],
               "Using a Joi.function for a params is not supported and has been removed.")
             entries).
Proof.
  intros Hin routeData entries.
  assert (Hbuild : build settings routes
    = buildRoutes settings (map (fun r => fst (toRouteData settings r)) routes)
        (concat (map (fun r => snd (toRouteData settings r)) routes))).
  { unfold build. rewrite !map_map. reflexivity. }
  split; [exact Hbuild|].
  split; [apply in_map_iff; exists route; split; [reflexivity | exact Hin]|].
  split.
  { intros entry He. rewrite Hbuild.
    destruct (buildRoutes_log settings
                (map (fun r => fst (toRouteData settings r)) routes)
                (concat (map (fun r => snd (toRouteData settings r)) routes)))
      as [more ->].
    apply in_or_app. left. apply in_concat.
    exists entries. split; [|exact He].
    apply in_map_iff. exists route. split; [reflexivity | exact Hin]. }
  subst routeData entries.
  repeat split.
  - apply toRouteData_function_query; assumption.
  - rewrite toRouteData_log, H. simpl. left. reflexivity.
  - apply toRouteData_function_headers; assumption.
  - rewrite toRouteData_log, H. simpl.
    apply in_or_app. right. apply in_or_app. right.
    simpl. left. reflexivity.
  - apply toRouteData_function_payload; assumption.
  - rewrite toRouteData_log, H. simpl.
    apply in_or_app. right. apply in_or_app. right. apply in_or_app. right.
    simpl. left. reflexivity.
  - apply toRouteData_function_params; assumption.
  - rewrite toRouteData_log, H. simpl.
    apply in_or_app. right. simpl. left. reflexivity.
Qed.

(** ** Path parameters *)





(** ** Header parameters and the accept filter *)

Lemma filterAccept_spec headers : forall produces,
  filterAccept headers produces
  = (List.filter (fun header => negb (isAcceptEnum header)) headers,
     match last (List.filter isAcceptEnum headers) with
     | Some header =>
         Some (sortFirstItem (default [] (p_enum header)) (p_default header))
     | None => produces
     end).
Proof.
  induction headers as [|header rest IH]; intros produces; simpl.
  - reflexivity.
  - cbn [List.filter].
    assert (Hacc : isAcceptEnum header
      = String.eqb (toLowerCase (p_name header)) "accept"
        && match p_enum header with Some _ => true | None => false end)
      by reflexivity.
    rewrite Hacc.
    destruct (String.eqb (toLowerCase (p_name header)) "accept");
      [destruct (p_enum header) as [enum|] eqn:Henum|];
      cbn [andb negb]; rewrite IH.
    + rewrite last_cons.
      destruct (last (List.filter isAcceptEnum rest)); [reflexivity|].
      rewrite Henum. reflexivity.
    + reflexivity.
    + reflexivity.
Qed.

Lemma applyAcceptToProduce_fst (settings : @Settings PathReplacements)
    headers produces :
  fst (applyAcceptToProduce settings headers produces)
  = keptHeaders settings headers.
Proof.
  unfold applyAcceptToProduce, keptHeaders.
  destruct (acceptToProduce settings); [|reflexivity].
  rewrite filterAccept_spec. reflexivity.
Qed.

(** C6. The parameter list of the emitted operation is the concatenation,
    in this order, of the header parameters (those the accept filter
    keeps), the path parameters, the query parameters and the payload
    parameters, each as its own stage left them; the stages themselves run
    payload, path, header, query. The field is pruned when all four are
    empty. *)
Theorem C6_parameter_order settings route w path method op w' :
  buildRoute settings route w = (Ok (path, method, op), w') ->
  exists payload pathS headerS queryS w1 w2 w3 w4,
    buildPayload settings route path w = (Ok payload, w1)
    /\ buildPathParams route path w1 = (Ok pathS, w2)
    /\ buildHeaderParams route path w2 = (Ok headerS, w3)
    /\ buildQueryParams route path w3 = (Ok queryS, w4)
    /\ op_parameters op
       = prune_list
           (Some (keptHeaders settings (parameters headerS)
                  ++ parameters pathS
                  ++ parameters queryS
                  ++ parameters (fst payload))).
Proof.
  intros Hroute.
  stages Hroute Hinv.
  destruct Hinv as (_ & Hpay & Hpath & Hhead & Hquery & _ & ->).
  exists pay, ps, hs, qs, w1, w2, w3, w4.
  repeat (split; [assumption|]).
  simpl. rewrite applyAcceptToProduce_fst. reflexivity.
Qed.






(** What the modelled [sortFirstItem] does with a default of the enum. *)
Lemma remove_one_Permutation first : forall array,
  In first array -> Permutation (first :: remove_one first array) array.
Proof.
  induction array as [|y r IH]; intros Hin; [destruct Hin|]. simpl.
  destruct (String.eqb first y) eqn:E.
  - apply String.eqb_eq in E. subst. reflexivity.
  - destruct Hin as [->|Hin]; [rewrite String.eqb_refl in E; discriminate|].
    rewrite perm_swap. constructor. apply IH. exact Hin.
Qed.

Lemma sortFirstItem_Permutation array firstItem :
  Permutation (sortFirstItem array firstItem) array.
Proof.
  unfold sortFirstItem. destruct firstItem as [first|]; [|reflexivity].
  destruct (existsb (String.eqb first) array) eqn:E; [|reflexivity].
  apply remove_one_Permutation. apply existsb_exists in E as (x & Hx & Heq).
  apply String.eqb_eq in Heq. subst. exact Hx.
Qed.

Lemma sortFirstItem_first array first :
  In first array ->
  sortFirstItem array (Some first) = first :: remove_one first array.
Proof.
  intros Hin. unfold sortFirstItem.
  replace (existsb (String.eqb first) array) with true; [reflexivity|].
  symmetry. apply existsb_exists. exists first. split; [exact Hin|].
  apply String.eqb_refl.
Qed.

Lemma remove_one_sublist first : forall array,
  sublist (remove_one first array) array.
Proof.
  induction array as [|y r IH]; simpl; [constructor|].
  destruct (String.eqb first y).
  - apply sublist_cons. reflexivity.
  - apply sublist_skip. exact IH.
Qed.

(** ** When [build] returns and when it raises *)

Lemma succeeds_ret {A} (a : A) : succeeds (ret a : @M Defs A).
Proof. intros w. exists a, w. reflexivity. Qed.

Lemma succeeds_bind {A B} (m : @M Defs A) (k : A -> M B) :
  succeeds m -> (forall a, succeeds (k a)) -> succeeds (bind m k).
Proof.
  intros Hm Hk w. destruct (Hm w) as (a & w1 & Ha).
  destruct (Hk a w1) as (b & w2 & Hb). exists b, w2.
  unfold bind. rewrite Ha. exact Hb.
Qed.

Lemma succeeds_lift_defs {A} (f : Defs -> A * Defs) : succeeds (lift_defs f).
Proof.
  intros w. unfold lift_defs. destruct (f (fst w)) as [a d].
  eexists _, _. reflexivity.
Qed.

Lemma succeeds_log tags message :
  succeeds (log tags message : @M Defs unit).
Proof. intros w. eexists _, _. reflexivity. Qed.

Lemma succeeds_forEach {A B} (f : A -> @M Defs B) items :
  (forall item, succeeds (f item)) -> succeeds (forEach f items).
Proof.
  intros Hf. induction items as [|item rest IH]; simpl.
  - apply succeeds_ret.
  - apply succeeds_bind; [apply Hf|]. intros b.
    apply succeeds_bind; [exact IH|]. intros bs. apply succeeds_ret.
Qed.

Lemma succeeds_getSwaggerStructures joiObj parameterType useDefinitions isAlt :
  succeeds (getSwaggerStructures joiObj parameterType useDefinitions isAlt).
Proof.
  unfold getSwaggerStructures. destruct joiObj.
  - apply succeeds_bind; [apply succeeds_lift_defs|].
    intros t. apply succeeds_ret.
  - apply succeeds_ret.
Qed.

Lemma succeeds_testParameterError joiObj parameterType path :
  succeeds (testParameterError joiObj parameterType path).
Proof.
  unfold testParameterError.
  destruct (truthy joiObj && negb (hasJoiChildren joiObj));
    [apply succeeds_log | apply succeeds_ret].
Qed.

Lemma succeeds_buildPayload settings route path :
  succeeds (buildPayload settings route path).
Proof.
  unfold buildPayload.
  match goal with |- succeeds (if ?b then _ else _) => destruct b end.
  - apply succeeds_bind; [apply succeeds_getSwaggerStructures|].
    intros; apply succeeds_ret.
  - apply succeeds_bind; [|intros; apply succeeds_ret].
    destruct (hasJoiChildren _); [apply succeeds_getSwaggerStructures|].
    apply succeeds_bind; [apply succeeds_testParameterError|].
    intros; apply succeeds_ret.
Qed.

Lemma succeeds_buildHeaderParams route path :
  succeeds (buildHeaderParams route path).
Proof.
  unfold buildHeaderParams. destruct (hasJoiChildren _).
  - apply succeeds_getSwaggerStructures.
  - apply succeeds_bind; [apply succeeds_testParameterError|].
    intros; apply succeeds_ret.
Qed.

Lemma succeeds_buildQueryParams route path :
  succeeds (buildQueryParams route path).
Proof.
  unfold buildQueryParams. destruct (hasJoiChildren _).
  - apply succeeds_getSwaggerStructures.
  - apply succeeds_bind; [apply succeeds_testParameterError|].
    intros; apply succeeds_ret.
Qed.

Lemma setRequired_returns path item (w : @World Defs) :
  (p_required item = None ->
   exists matched, placeholder_test (p_name item) path = Ok matched) ->
  exists item' w', setRequired path item w = (Ok item', w').
Proof.
  intros Htest. destruct item as [name loc req enum def type].
  simpl in Htest. unfold setRequired, bind, lift_res, ret, log. simpl.
  destruct req as [[]|]; simpl.
  - eexists _, _. reflexivity.
  - eexists _, _. reflexivity.
  - destruct (Htest eq_refl) as [matched ->].
    destruct matched; simpl; eexists _, _; reflexivity.
Qed.

Lemma forEach_setRequired_returns path : forall items (w : @World Defs),
  (forall item, In item items -> p_required item = None ->
     exists matched, placeholder_test (p_name item) path = Ok matched) ->
  exists items' w', forEach (setRequired path) items w = (Ok items', w').
Proof.
  induction items as [|item rest IH]; intros w Htest; simpl.
  - eexists _, _. reflexivity.
  - destruct (setRequired_returns path item w) as (item' & w1 & Hitem).
    { apply Htest. left. reflexivity. }
    destruct (IH w1) as (rest' & w2 & Hrest).
    { intros i Hi. apply Htest. right. exact Hi. }
    unfold bind. rewrite Hitem, Hrest. eexists _, _. reflexivity.
Qed.

Lemma succeeds_buildPathParams route path :
  (forall defs item,
     In item (derivedPathParameters route defs) ->
     p_required item = None ->
     exists matched, placeholder_test (p_name item) path = Ok matched) ->
  succeeds (buildPathParams route path).
Proof.
  intros Htest w. unfold buildPathParams, getJOIObj.
  destruct (hasJoiChildren (rd_pathParams route)) eqn:Hchildren.
  - specialize (Htest (fst w)). unfold derivedPathParameters in Htest.
    rewrite Hchildren in Htest.
    unfold getSwaggerStructures, bind, lift_defs, ret.
    destruct (rd_pathParams route) as [j|].
    + destruct (parseProperty None j "path" false false (fst w))
        as [tree defs]. simpl in Htest |- *.
      destruct (forEach_setRequired_returns path
                  (default [] (fromProperties tree "path")) (defs, snd w)
                  Htest) as (items & w2 & Hitems).
      rewrite Hitems. eexists _, _. reflexivity.
    + simpl. eexists _, _. reflexivity.
  - apply succeeds_bind; [apply succeeds_testParameterError|].
    intros; apply succeeds_ret.
Qed.

Lemma succeeds_buildRoute settings route :
  isArray (rd_description route) = false ->
  placeholdersAccepted settings route ->
  succeeds (buildRoute settings route).
Proof.
  intros Hd Htest. unfold buildRoute.
  apply succeeds_bind.
  { intros w. unfold lift_res, joinDescription. rewrite Hd.
    eexists _, _. reflexivity. }
  intros d.
  apply succeeds_bind; [apply succeeds_buildPayload|]. intros pay.
  apply succeeds_bind; [apply succeeds_buildPathParams; exact Htest|].
  intros ps.
  apply succeeds_bind; [apply succeeds_buildHeaderParams|]. intros hs.
  apply succeeds_bind; [apply succeeds_buildQueryParams|]. intros qs.
  apply succeeds_bind; [apply succeeds_lift_defs|]. intros rs.
  apply succeeds_ret.
Qed.

Lemma succeeds_forEachRoute settings routes :
  Forall (fun route => isArray (rd_description route) = false
                       /\ placeholdersAccepted settings route) routes ->
  forall pathObj, succeeds (forEachRoute settings routes pathObj).
Proof.
  induction 1 as [|route rest [Hd Htest] _ IH]; intros pathObj; simpl.
  - apply succeeds_ret.
  - apply succeeds_bind; [apply succeeds_buildRoute; assumption|].
    intros b. apply IH.
Qed.

(** Names without a metacharacter never reach the engine. *)
Lemma literal_names_accepted settings route :
  (forall defs item,
     In item (derivedPathParameters route defs) ->
     p_required item = None ->
     regexp_literal (p_name item) = true) ->
  placeholdersAccepted settings route.
Proof.
  intros Hlit defs item Hin Hreq. unfold placeholder_test.
  rewrite (Hlit defs item Hin Hreq). eexists. reflexivity.
Qed.


Lemma toRouteData_description settings route :
  rd_description (fst (toRouteData settings route)) = r_description route
  /\ rd_notes (fst (toRouteData settings route)) = None.
Proof. validators route; split; reflexivity. Qed.

(** X4. [build] returns a document for every route set in which no route
    has an array description and every placeholder test returns, which is
    so when the path parameters without [required] have names without
    metacharacters: function validators and schemas without children are
    logged, never raised. *)
Lemma build_returns_document settings routes :
  Forall (fun route =>
            isArray (r_description route) = false
            /\ placeholdersAccepted settings (fst (toRouteData settings route)))
         routes ->
  exists swagger, fst (build settings routes) = Ok swagger.
Proof.
  intros Hroutes. unfold build, buildRoutes.
  edestruct (succeeds_forEachRoute settings
               (map fst (map (toRouteData settings) routes)))
    as (pathObj & [defs lg] & Hrun).
  - rewrite map_map. apply Forall_map.
    eapply Forall_impl; [exact Hroutes|].
    intros route [Hd Htest]. simpl.
    rewrite (proj1 (toRouteData_description settings route)).
    split; assumption.
  - rewrite Hrun. eexists. reflexivity.
Qed.

Lemma buildRoute_array_description settings route w :
  isArray (rd_description route) = true ->
  rd_notes route = None ->
  buildRoute settings route w
  = (Throw (TypeError "Cannot read property 'join' of undefined"), w).
Proof.
  intros Hd Hn. unfold buildRoute, bind, lift_res, joinDescription.
  rewrite Hd, Hn. reflexivity.
Qed.

Lemma forEachRoute_throws settings route routes :
  In route routes ->
  (forall w, exists e w', buildRoute settings route w = (Throw e, w')) ->
  forall pathObj w,
    exists e w', forEachRoute settings routes pathObj w = (Throw e, w').
Proof.
  intros Hin Hthrow. induction routes as [|first rest IH]; [destruct Hin|].
  intros pathObj w. simpl. unfold bind.
  destruct (buildRoute settings first w) as [[b|e] w1] eqn:Hfirst.
  - destruct Hin as [->|Hin].
    + destruct (Hthrow w) as (e & w' & He). congruence.
    + apply IH. exact Hin.
  - exists e, w1. reflexivity.
Qed.

(** X5. One route with an array description, wherever it stands in the
    route set, is enough for [build] to raise and return no document at
    all. *)
Lemma build_throws_on_array_description settings routes route :
  In route routes ->
  isArray (r_description route) = true ->
  exists e, fst (build settings routes) = Throw e.
Proof.
  intros Hin Hd. unfold build, buildRoutes.
  edestruct (forEachRoute_throws settings (fst (toRouteData settings route))
               (map fst (map (toRouteData settings) routes)))
    as (e & [defs lg] & Hrun).
  - rewrite map_map. apply in_map_iff. exists route. split; [reflexivity|exact Hin].
  - intros w. eexists _, _. apply buildRoute_array_description.
    + rewrite (proj1 (toRouteData_description settings route)). exact Hd.
    + apply toRouteData_description.
  - rewrite Hrun. exists e. reflexivity.
Qed.

(** X6. A description that is not an array is emitted as it is. *)
Lemma description_as_is settings route w path method op w' :
  buildRoute settings route w = (Ok (path, method, op), w') ->
  isArray (rd_description route) = false ->
  op_description op = rd_description route.
Proof.
  intros Hroute Hd.
  stages Hroute Hinv.
  destruct Hinv as (Hjoin & _ & _ & _ & _ & _ & ->).
  unfold joinDescription in Hjoin. rewrite Hd in Hjoin.
  inversion Hjoin; subst. simpl.
  destruct (rd_description route); [reflexivity | reflexivity | discriminate Hd].
Qed.

(** ** [consumes], [produces] and [deprecated] from the route to the
    operation *)

Lemma toRouteData_declared settings route :
  rd_consumes (fst (toRouteData settings route)) = r_comsumes route
  /\ rd_produces (fst (toRouteData settings route)) = r_produces route
  /\ rd_deprecated (fst (toRouteData settings route))
     = or_null_prim (r_deprecated route).
Proof.
  destruct route as [? ? ? ? ? ? vq vp vl vh ? ? ? comsumes produces
                     ? ? ? ? ? ?];
    unfold toRouteData; simpl;
    destruct vq as [[]|], vp as [[]|], vl as [[]|], vh as [[]|];
    destruct comsumes, produces; repeat split; reflexivity.
Qed.

Lemma userDefined_precedence fromSettings fromRoute discovered :
  userDefined fromSettings fromRoute discovered
  = match fromRoute, fromSettings with
    | Some perRoute, _ => Some perRoute
    | None, Some global => Some global
    | None, None => discovered
    end.
Proof. destruct fromSettings, fromRoute; reflexivity. Qed.

(** [buildRoutes] puts the [consumes] of the [routeData] it is given over
    the one of the settings and over the discovered one; a content-type
    header parameter removes the field. *)
Lemma consumes_of_routeData settings route w path method op w' consumes :
  buildRoute settings route w = (Ok (path, method, op), w') ->
  rd_consumes route = Some consumes ->
  op_consumes op
  = if hasContentTypeHeader (default [] (op_parameters op)) then None
    else prune_list (Some consumes).
Proof.
  intros Hroute Hc.
  stages Hroute Hinv.
  destruct Hinv as (_ & _ & _ & _ & _ & _ & ->).
  unfold deleteEmptyProperties, assembled. cbn [op_consumes op_parameters].
  match goal with
  | |- context [hasContentTypeHeader (default [] (prune_list (Some ?l)))] =>
      replace (default [] (prune_list (Some l))) with l
        by (destruct l; reflexivity)
  end.
  rewrite Hc, !userDefined_precedence.
  destruct (hasContentTypeHeader _); reflexivity.
Qed.

(** The [consumes] that [build] hands over is the property [comsumes] of
    the route; the declared [consumes] plays no part. *)
Lemma consumes_through_build settings route w path method op w' :
  buildRoute settings (fst (toRouteData settings route)) w
  = (Ok (path, method, op), w') ->
  r_comsumes route = None ->
  st_consumes settings = None ->
  op_consumes op = None
  \/ op_consumes op = Some ["multipart/form-data"]
  \/ op_consumes op = Some ["application/x-www-form-urlencoded"].
Proof.
  intros Hroute Hc Hs.
  stages Hroute Hinv.
  destruct Hinv as (_ & Hpay & _ & _ & _ & _ & ->). simpl.
  rewrite userDefined_precedence.
  rewrite (proj1 (toRouteData_declared settings route)), Hc, Hs.
  destruct (hasContentTypeHeader _); [left; reflexivity|].
  destruct (hasFileType _); [right; left; reflexivity|].
  unfold buildPayload in Hpay.
  match type of Hpay with
  | (if ?b then _ else _) _ = _ => destruct b
  end.
  - apply bind_Ok in Hpay as (s0 & w0 & _ & Hpay).
    inversion Hpay; subst. left. reflexivity.
  - apply bind_Ok in Hpay as (s0 & w0 & _ & Hpay).
    inversion Hpay; subst. right. right. reflexivity.
Qed.

(** The declared [produces] of a route reaches the operation, unless the
    accept filter is on. *)
Lemma produces_through_build settings route w path method op w' produces :
  buildRoute settings (fst (toRouteData settings route)) w
  = (Ok (path, method, op), w') ->
  acceptToProduce settings = false ->
  r_produces route = Some produces ->
  op_produces op = prune_list (Some produces).
Proof.
  intros Hroute Hflag Hp.
  stages Hroute Hinv.
  destruct Hinv as (_ & _ & _ & _ & _ & _ & ->). simpl.
  unfold applyAcceptToProduce. rewrite Hflag. simpl.
  rewrite userDefined_precedence.
  rewrite (proj1 (proj2 (toRouteData_declared settings route))), Hp.
  reflexivity.
Qed.

(** [buildRoutes] keeps a [deprecated] of its [routeData] that is [false]. *)
Lemma deprecated_false_kept_by_buildRoutes settings route w path method op w' :
  buildRoute settings route w = (Ok (path, method, op), w') ->
  rd_deprecated route = js_bool false ->
  op_deprecated op = js_bool false.
Proof.
  intros Hroute Hd.
  stages Hroute Hinv.
  destruct Hinv as (_ & _ & _ & _ & _ & _ & ->). simpl.
  rewrite Hd. reflexivity.
Qed.

(** X7. Through [build], the operation carries [deprecated] exactly when
    the flag of the route is truthy, and then with the value of the flag. *)
Lemma deprecated_through_build settings route w path method op w' :
  buildRoute settings (fst (toRouteData settings route)) w
  = (Ok (path, method, op), w') ->
  op_deprecated op
  = if truthy (r_deprecated route) then r_deprecated route else js_undefined.
Proof.
  intros Hroute.
  stages Hroute Hinv.
  destruct Hinv as (_ & _ & _ & _ & _ & _ & ->). simpl.
  rewrite (proj2 (proj2 (toRouteData_declared settings route))).
  unfold or_null_prim, js_or.
  destruct (r_deprecated route) as [| |[]|z|str]; try reflexivity.
  - unfold truthy, truthy_prim. destruct (Z.eqb z 0); reflexivity.
  - destruct str; reflexivity.
Qed.

(** ** The locations of the emitted parameters *)

Lemma setRequired_in path item (w : @World Defs) item' w' :
  setRequired path item w = (Ok item', w') -> p_in item' = p_in item.
Proof.
  unfold setRequired. intros H.
  apply bind_Ok in H as (item1 & w1 & H1 & H). cbv beta zeta in H.
  apply bind_Ok in H as (u & w2 & _ & H). inversion H; subst. clear H.
  assert (Hin : p_in item1 = p_in item).
  { destruct (p_required item).
    - inversion H1; subst. reflexivity.
    - apply bind_Ok in H1 as (matched & w0 & _ & H1).
      inversion H1; subst. destruct matched; reflexivity. }
  rewrite <- Hin. destruct (p_required item1) as [[]|]; reflexivity.
Qed.

Lemma forEach_setRequired_in path location : forall items (w : @World Defs) items' w',
  forEach (setRequired path) items w = (Ok items', w') ->
  Forall (fun param => p_in param = location) items ->
  Forall (fun param => p_in param = location) items'.
Proof.
  induction items as [|item rest IH]; intros w items' w' H Hall; simpl in H.
  - inversion H. constructor.
  - apply bind_Ok in H as (item' & w1 & Hitem & H). cbv beta in H.
    apply bind_Ok in H as (rest' & w2 & Hrest & H). cbv beta in H.
    inversion H; subst. inversion Hall; subst. constructor.
    + apply setRequired_in in Hitem. congruence.
    + eapply IH; eassumption.
Qed.

Section ParametersContract.

(** The contract of [Parameters.fromProperties]: the parameters of a
    location carry it in their [in] property. *)
Hypothesis fromProperties_in :
  forall tree location params,
    fromProperties tree location = Some params ->
    Forall (fun param => p_in param = location) params.

Lemma getSwaggerStructures_in joiObj location useDefinitions isAlt w s w' :
  getSwaggerStructures joiObj location useDefinitions isAlt w = (Ok s, w') ->
  Forall (fun param => p_in param = location) (parameters s).
Proof.
  unfold getSwaggerStructures. destruct joiObj as [j|]; intros H.
  - apply bind_Ok in H as (tree & w1 & _ & H). inversion H; subst. simpl.
    destruct (fromProperties tree location) as [params|] eqn:Hp; simpl.
    + eapply fromProperties_in. exact Hp.
    + constructor.
  - inversion H; subst. constructor.
Qed.

Lemma testParameterError_default joiObj parameterType path
    (w : @World Defs) s w' (P : Param -> Prop) :
  bind (testParameterError joiObj parameterType path)
       (fun _ => ret getDefaultStructures) w = (Ok s, w') ->
  Forall P (parameters s).
Proof.
  intros H. apply bind_Ok in H as (u & w1 & _ & H).
  inversion H; subst. constructor.
Qed.

(** X10. When the parameters that [Parameters.fromProperties] returns
    carry their location, in the emitted list every header parameter comes
    before every path parameter, those before every query parameter, and
    those before the [body] or [formData] parameters. *)
Lemma parameters_by_location settings route w path method op w' :
  buildRoute settings route w = (Ok (path, method, op), w') ->
  exists headers paths queries payloads,
    op_parameters op
    = prune_list (Some (headers ++ paths ++ queries ++ payloads))
    /\ Forall (fun param => p_in param = "header") headers
    /\ Forall (fun param => p_in param = "path") paths
    /\ Forall (fun param => p_in param = "query") queries
    /\ Forall (fun param => p_in param = "body" \/ p_in param = "formData")
         payloads.
Proof.
  intros Hroute.
  stages Hroute Hinv.
  destruct Hinv as (_ & Hpay & Hpath & Hhead & Hquery & _ & ->).
  exists (keptHeaders settings (parameters hs)), (parameters ps),
    (parameters qs), (parameters (fst pay)).
  split; [simpl; rewrite applyAcceptToProduce_fst; reflexivity|].
  split; [|split; [|split]].
  - assert (Hall : Forall (fun param => p_in param = "header") (parameters hs)).
    { unfold buildHeaderParams in Hhead. destruct (hasJoiChildren _).
      - eapply getSwaggerStructures_in. exact Hhead.
      - eapply testParameterError_default. exact Hhead. }
    unfold keptHeaders. destruct (acceptToProduce settings); [|exact Hall].
    apply Forall_forall. intros x Hx. apply list_elem_of_In in Hx.
    apply filter_In in Hx as [Hx _].
    rewrite Forall_forall in Hall. apply Hall. apply list_elem_of_In. exact Hx.
  - unfold buildPathParams in Hpath. destruct (hasJoiChildren _).
    + apply bind_Ok in Hpath as (s0 & wa & Hs0 & Hpath). cbv beta in Hpath.
      apply bind_Ok in Hpath as (items & wb & Hitems & Hpath).
      inversion Hpath; subst. simpl.
      eapply forEach_setRequired_in; [exact Hitems|].
      eapply getSwaggerStructures_in. exact Hs0.
    + eapply testParameterError_default. exact Hpath.
  - unfold buildQueryParams in Hquery. destruct (hasJoiChildren _).
    + eapply getSwaggerStructures_in. exact Hquery.
    + eapply testParameterError_default. exact Hquery.
  - unfold buildPayload in Hpay.
    match type of Hpay with
    | (if ?b then _ else _) _ = _ => destruct b
    end.
    + apply bind_Ok in Hpay as (s0 & wa & Hs0 & Hpay).
      inversion Hpay; subst. simpl.
      eapply Forall_impl; [eapply getSwaggerStructures_in; exact Hs0|].
      intros x Hx. left. exact Hx.
    + apply bind_Ok in Hpay as (s0 & wa & Hs0 & Hpay).
      inversion Hpay; subst. simpl.
      destruct (hasJoiChildren _).
      * eapply Forall_impl; [eapply getSwaggerStructures_in; exact Hs0|].
        intros x Hx. right. exact Hx.
      * eapply testParameterError_default. exact Hs0.
Qed.

End ParametersContract.

(** ** Base path and optional markers *)

Lemma strip_prefix_app p : forall rest, strip_prefix p (p +:+ rest) = Some rest.
Proof.
  induction p as [|c p IH]; intros rest; simpl; [reflexivity|].
  rewrite Ascii.eqb_refl. apply IH.
Qed.

Lemma remove_first_prefix p s rest :
  strip_prefix p s = Some rest -> remove_first p s = rest.
Proof. intros H. destruct s; simpl; rewrite H; reflexivity. Qed.

(** X1. [removeBasePath] on a path below the base path returns the
    remainder after the base path with the endpoint replacements applied
    to it, except for the base path [/], which is never stripped; a path
    that does not start with the base path is returned unchanged, without
    replacements. *)
Theorem removeBasePath_strips_prefix basePath pathReplacements :
  (forall rest,
     removeBasePath (basePath +:+ rest) basePath pathReplacements
     = if String.eqb basePath "/" then basePath +:+ rest
       else replaceInPath rest ["endpoints"] pathReplacements)
  /\ (forall path,
        strip_prefix basePath path = None ->
        removeBasePath path basePath pathReplacements = path).
Proof.
  split.
  - intros rest. unfold removeBasePath, startsWith.
    rewrite strip_prefix_app.
    destruct (String.eqb basePath "/"); simpl; [reflexivity|].
    rewrite (remove_first_prefix _ _ _ (strip_prefix_app basePath rest)).
    reflexivity.
  - intros path H. unfold removeBasePath, startsWith. rewrite H.
    rewrite andb_false_r. reflexivity.
Qed.

Lemma includes_cons_false p c s :
  includes p (String c s) = false ->
  strip_prefix p (String c s) = None /\ includes p s = false.
Proof.
  simpl. destruct (strip_prefix p (String c s)) eqn:E.
  - destruct p; discriminate.
  - destruct p; [discriminate|]. intros H. split; [reflexivity | exact H].
Qed.

Lemma includes_false_strip p s :
  includes p s = false -> strip_prefix p s = None.
Proof.
  destruct s as [|c s]; simpl.
  - destruct (strip_prefix p "") eqn:E; [|reflexivity].
    destruct p; discriminate.
  - intros H. apply includes_cons_false in H. apply H.
Qed.

(** X2. [cleanPathParameters] removes the question mark of the first
    optional marker only: a path that reads [before], then the marker,
    then [after], where [before] holds no marker, becomes [before], a
    closing brace and [after], whatever markers [after] holds; a path
    without a marker is returned as it is. *)
Theorem cleanPathParameters_first_marker before after :
  includes "?}" before = false ->
  cleanPathParameters (before +:+ "?}" +:+ after) = before +:+ "}" +:+ after
  /\ cleanPathParameters before = before.
Proof.
  unfold cleanPathParameters. induction before as [|c before IH]; intros H.
  - split; reflexivity.
  - apply includes_cons_false in H as [Hstrip Hrest].
    destruct (IH Hrest) as [IH1 IH2].
    assert (Hnone : strip_prefix "?}" (String c (before +:+ "?}" +:+ after))
                    = None).
    { destruct before as [|d before'].
      - change (String c (String "?" (String "}" after))) with
          (String c ("" +:+ "?}" +:+ after)).
        cbn [strip_prefix]. destruct (Ascii.eqb "?" c); reflexivity.
      - change (String d before' +:+ "?}" +:+ after)
          with (String d (before' +:+ "?}" +:+ after)).
        cbn [strip_prefix] in Hstrip |- *.
        destruct (Ascii.eqb "?" c); [|reflexivity].
        destruct (Ascii.eqb "}" d); [discriminate Hstrip | reflexivity]. }
    split.
    + change (String c before +:+ "?}" +:+ after)
        with (String c (before +:+ "?}" +:+ after)).
      cbn [replace_first]. rewrite Hnone. rewrite IH1. reflexivity.
    + cbn [replace_first]. rewrite Hstrip. rewrite IH2. reflexivity.
Qed.

(** X3. [hasContentTypeHeader] answers [true] exactly when some parameter
    of the list is a header parameter whose name is [content-type] in lower
    case; parameters of the other locations never count. *)
Theorem hasContentTypeHeader_iff parameters :
  hasContentTypeHeader parameters = true
  <-> exists param,
        In param parameters
        /\ p_in param = "header"
        /\ toLowerCase (p_name param) = "content-type".
Proof.
  rewrite hasContentTypeHeader_existsb. rewrite existsb_exists.
  split; intros (param & Hin & H); exists param; (split; [exact Hin|]).
  - unfold isContentTypeHeader in H. apply andb_true_iff in H as [H1 H2].
    apply String.eqb_eq in H1, H2. split; assumption.
  - destruct H as [H1 H2]. unfold isContentTypeHeader.
    rewrite H1, H2. reflexivity.
Qed.

(** ** What [build] hands to [buildRoutes] *)

Lemma toRouteData_fields settings route :
  rd_path (fst (toRouteData settings route))
  = replaceInPath (r_path route) ["endpoints"] (st_pathReplacements settings)
  /\ rd_method (fst (toRouteData settings route)) = toUpperCase (r_method route)
  /\ rd_id (fst (toRouteData settings route)) = r_id route
  /\ rd_order (fst (toRouteData settings route)) = or_null_prim (r_order route).
Proof. validators route; repeat split; reflexivity. Qed.

(** X8. A function validator apart, [build] never replaces a validator: it
    hands to [buildRoutes] what [Utilities.toJoiObject] makes of the
    validator of each location, [null] included. *)
Theorem toRouteData_structured settings route :
  (isFunction (r_validate_query route) = false ->
     rd_queryParams (fst (toRouteData settings route))
     = toJoiObject (r_validate_query route))
  /\ (isFunction (r_validate_params route) = false ->
        rd_pathParams (fst (toRouteData settings route))
        = toJoiObject (r_validate_params route))
  /\ (isFunction (r_validate_headers route) = false ->
        rd_headerParams (fst (toRouteData settings route))
        = toJoiObject (r_validate_headers route))
  /\ (isFunction (r_validate_payload route) = false ->
        rd_payloadParams (fst (toRouteData settings route))
        = toJoiObject (r_validate_payload route)).
Proof.
  validators route; repeat split; intros H; try discriminate H; reflexivity.
Qed.

(** X9. The log of [build] begins with the normalization entries of all
    the routes, in the order of the routes and, within a route, in the
    order query, params, headers, payload: one entry for each function
    validator and none for any other validator. What building the
    operations logs comes after them. *)
Theorem build_logs_normalization_first settings routes :
  exists rest,
    snd (build settings routes)
    = concat (map normalizationEntries routes) ++ rest.
Proof.
  unfold build. rewrite !map_map.
  destruct (buildRoutes_log settings
              (map (fun r => fst (toRouteData settings r)) routes)
              (concat (map (fun r => snd (toRouteData settings r)) routes)))
    as [rest Hrest].
  exists rest. rewrite Hrest. f_equal. f_equal.
  apply map_ext. intros route. apply toRouteData_log.
Qed.

Lemma lower_upper_ascii c : lower_ascii (upper_ascii c) = lower_ascii c.
Proof. destruct c as [[] [] [] [] [] [] [] []]; reflexivity. Qed.

Lemma toLowerCase_toUpperCase s : toLowerCase (toUpperCase s) = toLowerCase s.
Proof.
  unfold toLowerCase, toUpperCase.
  induction s as [|c s IH]; simpl; [reflexivity|].
  rewrite lower_upper_ascii, IH. reflexivity.
Qed.

(** X11. Through [build], an operation is stored under the lower-case
    method, whatever the case of the method of the route, and under the
    path after replacements and base path removal, while the operation id
    derived for a route without an id is made from the upper-case method
    and the path before the base path is removed. *)
Theorem keys_through_build settings route w path method op w' :
  buildRoute settings (fst (toRouteData settings route)) w
  = (Ok (path, method, op), w') ->
  path = removeBasePath
           (replaceInPath (r_path route) ["endpoints"]
                          (st_pathReplacements settings))
           (st_basePath settings) (st_pathReplacements settings)
  /\ method = toLowerCase (r_method route)
  /\ op_operationId op
     = if truthy (r_id route) then default "" (r_id route)
       else createId (toUpperCase (r_method route))
              (replaceInPath (r_path route) ["endpoints"]
                             (st_pathReplacements settings)).
Proof.
  intros Hroute.
  destruct (toRouteData_fields settings route) as (Hp & Hm & Hi & _).
  apply buildRoute_inv in Hroute as (Hpath & Hmethod & d & pay & ps & hs & qs
    & rs & w1 & w2 & w3 & w4 & _ & _ & _ & _ & _ & _ & ->).
  rewrite Hp in Hpath. rewrite Hm, toLowerCase_toUpperCase in Hmethod.
  split; [exact Hpath|]. split; [exact Hmethod|].
  unfold deleteEmptyProperties, assembled. cbn [op_operationId].
  rewrite Hi, Hm, Hp. reflexivity.
Qed.

(** X12. The tags of an operation are the tags of the route when it has
    any, else its groups; an empty tags array still takes precedence over
    the groups and leaves the operation without tags. *)
Theorem tags_or_groups settings route w path method op w' :
  buildRoute settings route w = (Ok (path, method, op), w') ->
  op_tags op
  = match rd_tags route with
    | Some [] => None
    | Some tags => Some tags
    | None => prune_list (rd_groups route)
    end.
Proof.
  intros Hroute. stages Hroute Hinv.
  destruct Hinv as (_ & _ & _ & _ & _ & _ & ->).
  unfold deleteEmptyProperties, assembled. cbn [op_tags].
  destruct (rd_tags route) as [[|t tags]|]; reflexivity.
Qed.

(** X13. Through [build], the operation carries [x-order] exactly when the
    order of the route is truthy: an order of [0] is never emitted. *)
Theorem order_through_build settings route w path method op w' :
  buildRoute settings (fst (toRouteData settings route)) w
  = (Ok (path, method, op), w') ->
  op_x_order op
  = if truthy (r_order route) then r_order route else js_undefined.
Proof.
  intros Hroute.
  destruct (toRouteData_fields settings route) as (_ & _ & _ & Ho).
  stages Hroute Hinv.
  destruct Hinv as (_ & _ & _ & _ & _ & _ & ->).
  unfold deleteEmptyProperties, assembled. cbn [op_x_order].
  rewrite Ho. unfold or_null_prim, js_or.
  destruct (r_order route) as [| |[]|z|str]; try reflexivity.
  - unfold truthy, truthy_prim.
    destruct (Z.eqb z 0) eqn:E; cbn; rewrite ?E; reflexivity.
  - destruct str; reflexivity.
Qed.

(** ** [consumes] and [produces] of an operation *)




Lemma acceptToProduce_other (settings : @Settings PathReplacements) :
  st_acceptToProduce settings <> js_bool true ->
  acceptToProduce settings = false.
Proof.
  unfold acceptToProduce.
  destruct (st_acceptToProduce settings) as [| |[]|z|str]; congruence.
Qed.

(** X15. With an [acceptToProduce] that is not exactly [true], be it
    truthy, the [produces] of an operation is the one of its [routeData]
    when present, else the one of the settings when present, else absent;
    an empty list is pruned. *)
Theorem produces_precedence settings route w path method op w' :
  buildRoute settings route w = (Ok (path, method, op), w') ->
  st_acceptToProduce settings <> js_bool true ->
  op_produces op
  = match rd_produces route, st_produces settings with
    | Some perRoute, _ => prune_list (Some perRoute)
    | None, Some global => prune_list (Some global)
    | None, None => None
    end.
Proof.
  intros Hroute Hflag. apply acceptToProduce_other in Hflag.
  stages Hroute Hinv.
  destruct Hinv as (_ & _ & _ & _ & _ & _ & ->).
  unfold deleteEmptyProperties, assembled. cbn [op_produces].
  unfold applyAcceptToProduce. rewrite Hflag. cbn [snd].
  rewrite userDefined_precedence.
  destruct (rd_produces route), (st_produces settings); reflexivity.
Qed.

(** ** Path parameters with an explicit [required] *)




(** ** Schemas without children *)

Lemma testParameterError_childless j parameterType path (w : @World Defs) :
  hasChildren j = false ->
  testParameterError (Some j) parameterType path w
  = (Ok tt, (fst w, snd w ++ [parameterError path parameterType])).
Proof.
  intros H. unfold testParameterError, hasJoiChildren. rewrite H. reflexivity.
Qed.

Lemma childless_stage_logs j parameterType path (w : @World Defs) s w2 :
  hasChildren j = false ->
  bind (testParameterError (Some j) parameterType path)
       (fun _ => ret getDefaultStructures) w = (Ok s, w2) ->
  In (parameterError path parameterType) (snd w2).
Proof.
  intros Hj H. apply bind_Ok in H as (u & w1 & Hlog & H).
  rewrite (testParameterError_childless _ _ _ _ Hj) in Hlog.
  inversion Hlog; subst. inversion H; subst. simpl.
  apply in_or_app. right. left. reflexivity.
Qed.

(** X17. A schema that is present without child properties is reported:
    when [buildRoute] returns, its log holds the error entry of each such
    location among params, headers and query, and the one of the payload
    when the payload type is not [json] in lower case. *)
Theorem childless_schemas_are_logged settings route w path method op w' :
  buildRoute settings route w = (Ok (path, method, op), w') ->
  (forall j, rd_pathParams route = Some j -> hasChildren j = false ->
     In (parameterError path "params") (snd w'))
  /\ (forall j, rd_headerParams route = Some j -> hasChildren j = false ->
        In (parameterError path "headers") (snd w'))
  /\ (forall j, rd_queryParams route = Some j -> hasChildren j = false ->
        In (parameterError path "query") (snd w'))
  /\ (forall j, rd_payloadParams route = Some j -> hasChildren j = false ->
        String.eqb (toLowerCase (effectivePayloadType settings route)) "json"
        = false ->
        In (parameterError path "payload form-urlencoded") (snd w')).
Proof.
  intros Hroute. stages Hroute Hinv.
  destruct Hinv as (_ & Hpay & Hpath & Hhead & Hquery & Hresp & _).
  assert (L4 : logExtends w4 w')
    by (eapply appendsLog_lift_defs; exact Hresp).
  assert (L3 : logExtends w3 w').
  { eapply logExtends_trans; [|exact L4].
    eapply appendsLog_buildQueryParams; exact Hquery. }
  assert (L2 : logExtends w2 w').
  { eapply logExtends_trans; [|exact L3].
    eapply appendsLog_buildHeaderParams; exact Hhead. }
  assert (L1 : logExtends w1 w').
  { eapply logExtends_trans; [|exact L2].
    eapply appendsLog_buildPathParams; exact Hpath. }
  split; [|split; [|split]].
  - intros j Hj Hc. eapply logExtends_In; [exact L2|].
    unfold buildPathParams in Hpath. simpl in Hpath.
    rewrite Hj in Hpath. simpl in Hpath. rewrite Hc in Hpath.
    eapply childless_stage_logs; eassumption.
  - intros j Hj Hc. eapply logExtends_In; [exact L3|].
    unfold buildHeaderParams in Hhead. simpl in Hhead.
    rewrite Hj in Hhead. simpl in Hhead. rewrite Hc in Hhead.
    eapply childless_stage_logs; eassumption.
  - intros j Hj Hc. eapply logExtends_In; [exact L4|].
    unfold buildQueryParams in Hquery. simpl in Hquery.
    rewrite Hj in Hquery. simpl in Hquery. rewrite Hc in Hquery.
    eapply childless_stage_logs; eassumption.
  - intros j Hj Hc Hform. eapply logExtends_In; [exact L1|].
    unfold buildPayload in Hpay. fold (effectivePayloadType settings route) in Hpay.
    rewrite Hform in Hpay. simpl in Hpay.
    rewrite Hj in Hpay. simpl in Hpay. rewrite Hc in Hpay.
    apply bind_Ok in Hpay as (s0 & w0 & Hs0 & Hpay).
    inversion Hpay; subst.
    eapply childless_stage_logs; eassumption.
Qed.

(** ** The document, key by key *)

Lemma fold_insertBuilt_lookup built : forall path method op,
  operationAt (fold_left insertBuilt built
                 (∅ : gmap string (gmap string (@Operation Responses))))
              path method = Some op ->
  exists earlier later,
    built = earlier ++ (path, method, op) :: later
    /\ Forall (fun b => ~ sameKey path method b) later.
Proof.
  induction built as [|b built IH] using rev_ind; intros path method op H.
  - simpl in H. rewrite operationAt_empty in H. discriminate H.
  - rewrite fold_left_app in H. simpl in H. unfold insertBuilt at 1 in H.
    rewrite operationAt_setOperation in H.
    destruct (decide _) as [[Hp Hm]|Hn].
    + exists built, []. destruct b as [[p m] o]. simpl in *.
      inversion H; subst. split; [reflexivity | constructor].
    + apply IH in H as (earlier & later & -> & Hlater).
      exists earlier, (later ++ [b]). split.
      * rewrite <- app_assoc. reflexivity.
      * apply Forall_app. split; [exact Hlater|].
        constructor; [|constructor]. intros [Hp Hm]. apply Hn.
        split; assumption.
Qed.

(** X18. When every route builds, the document of [buildRoutes] holds at
    each path and method exactly the operation of the last route built on
    that key: operations on different keys all stay, under a path several
    methods accumulate, and nothing else is in the map. *)
Theorem document_holds_last_per_key settings routes logged built w' :
  forEach (buildRoute settings) routes (emptyDefs, logged) = (Ok built, w') ->
  exists swagger,
    buildRoutes settings routes logged = (Ok swagger, snd w')
    /\ forall path method op,
         operationAt (sw_paths swagger) path method = Some op
         <-> exists earlier later,
               built = earlier ++ (path, method, op) :: later
               /\ Forall (fun b => ~ sameKey path method b) later.
Proof.
  intros Hrun. unfold buildRoutes. rewrite forEachRoute_forEach, Hrun.
  destruct w' as [defs lg]. eexists. split; [reflexivity|]. simpl.
  intros path method op. split.
  - apply fold_insertBuilt_lookup.
  - intros (earlier & later & -> & Hlater).
    rewrite fold_left_app. simpl.
    rewrite operationAt_fold_other by assumption.
    unfold insertBuilt at 1. simpl. rewrite operationAt_setOperation.
    destruct (decide _) as [_|Hn]; [reflexivity|].
    exfalso. apply Hn. split; reflexivity.
Qed.

(** ** A route without validation *)

(** X19. A route without any validator and without an array description
    always builds: its operation has no [parameters] field, nothing is
    logged, and the definitions store is the one [responses.build]
    leaves. *)
Theorem route_without_validation settings route w :
  rd_queryParams route = None ->
  rd_pathParams route = None ->
  rd_headerParams route = None ->
  rd_payloadParams route = None ->
  isArray (rd_description route) = false ->
  exists op,
    buildRoute settings route w
    = (Ok (removeBasePath (rd_path route) (st_basePath settings)
             (st_pathReplacements settings),
           toLowerCase (rd_method route), op),
       (snd (responses_build (rd_responses route) (rd_responseSchema route)
               (rd_responseStatus route) true false (fst w)),
        snd w))
    /\ op_parameters op = None.
Proof.
  intros Hq Hp Hh Hb Hd.
  unfold buildRoute, bind, lift_res, joinDescription, buildPayload,
    buildPathParams, buildHeaderParams, buildQueryParams, getJOIObj,
    lift_defs.
  rewrite Hd, Hq, Hp, Hh, Hb.
  destruct (String.eqb _ "json"); simpl;
    destruct (responses_build (rd_responses route) (rd_responseSchema route)
                (rd_responseStatus route) true false (fst w)) as [r defs];
    unfold applyAcceptToProduce; destruct (acceptToProduce settings); simpl;
    eexists; (split; [destruct w; reflexivity | reflexivity]).
Qed.

End Properties.

(** * The translation on concrete routes *)

Import Sample.

Example sortFirstItem_default_b :
  sortFirstItem ["a"; "b"] (Some "b") = ["b"; "a"].
Proof. reflexivity. Qed.

Example placeholder_colon :
  placeholder_test "id" "/item/:id" = Ok true
  /\ placeholder_test "id" "/item/:id/parts" = Ok true
  /\ placeholder_test "id" "/item/:identifier" = Ok false
  /\ placeholder_test "id" "/item/:id?" = Ok false
  /\ placeholder_test "id" "/item/{id}" = Ok false
  /\ placeholder_test "id" "/item/{id?}" = Ok false.
Proof. repeat split; reflexivity. Qed.



(** C2, at a route that declares [consumes] and [produces]: [build] reads
    the property [comsumes], so the declared [consumes] never reaches
    [buildRoutes] and the operation has no [consumes], while the declared
    [produces], read under its own name, is emitted. *)
Theorem C2_route_consumes_not_read :
  r_consumes xmlRoute = Some ["application/xml"]
  /\ rd_consumes (fst (toRouteData settings xmlRoute)) = None
  /\ exists op,
       emitted (build settings [xmlRoute]) "/upload" "post" = Some op
       /\ op_consumes op = None
       /\ op_produces op = Some ["application/xml"].
Proof.
  split; [reflexivity|]. split; [reflexivity|].
  eexists. split; [vm_compute; reflexivity|]. split; reflexivity.
Qed.

(** C3, at a route set whose second route has an array description:
    [build] raises a [TypeError] and returns no document, also for the
    first route. *)
Theorem C3_build_throws :
  build settings [route "/health" "get"; linesRoute]
  = (Throw (TypeError "Cannot read property 'join' of undefined"), []).
Proof. vm_compute. reflexivity. Qed.

(** C4, at a route whose description is the lines [first] and [second]:
    the route is normalized without [notes], [buildRoute] reads [join] of
    it and raises, where the claim has the description
    [first<br/><br/>second]. *)
Theorem C4_array_description_throws :
  rd_description (fst (toRouteData settings linesRoute))
  = D_lines ["first"; "second"]
  /\ rd_notes (fst (toRouteData settings linesRoute)) = None
  /\ fst (buildOne settings linesRoute)
     = Throw (TypeError "Cannot read property 'join' of undefined")
  /\ join "<br/><br/>" ["first"; "second"] = "first<br/><br/>second".
Proof. repeat split; vm_compute; reflexivity. Qed.

(** C8, at a route with [deprecated: false]: [build] normalizes the flag to
    [null] and the operation carries no [deprecated] field. *)
Theorem C8_deprecated_false_not_emitted :
  r_deprecated notDeprecatedRoute = js_bool false
  /\ rd_deprecated (fst (toRouteData settings notDeprecatedRoute)) = js_null
  /\ exists op,
       emitted (build settings [notDeprecatedRoute]) "/old" "get" = Some op
       /\ op_deprecated op = js_undefined.
Proof.
  split; [reflexivity|]. split; [reflexivity|].
  eexists. split; [vm_compute; reflexivity|]. reflexivity.
Qed.

Lemma C5_witness :
  In functionRoute [functionRoute]
  /\ let routeData := fst (toRouteData settings functionRoute) in
     let entries := snd (toRouteData settings functionRoute) in
     build settings [functionRoute]
     = buildRoutes settings
         (map (fun r => fst (toRouteData settings r)) [functionRoute])
         (concat (map (fun r => snd (toRouteData settings r)) [functionRoute]))
     /\ In routeData
          (map (fun r => fst (toRouteData settings r)) [functionRoute])
     /\ (forall entry, In entry entries ->
           In entry (snd (build settings [functionRoute])))
     /\ (r_validate_query functionRoute = Some V_function ->
           rd_queryParams routeData
        = Some (V_joi (Joi_object (Some [("Hidden Model", Joi_string)])))
           /\ In (["validation"; "warning"],
               "Using a Joi.function for a query, header or payload is not supported.")
             entries)
     /\ (r_validate_headers functionRoute = Some V_function ->
           rd_headerParams routeData
        = Some (V_joi (Joi_object (Some [("Hidden Model", Joi_string)])))
           /\ In (["validation"; "warning"],
               "Using a Joi.function for a query, header or payload is not supported.")
             entries)
     /\ (r_validate_payload functionRoute = Some V_function ->
           rd_payloadParams routeData
        = Some (V_joi (Joi_label "Hidden Model" (Joi_object None)))
           /\ In (["validation"; "warning"],
               "Using a Joi.function for a query, header or payload is not supported.")
             entries)
     /\ (r_validate_params functionRoute = Some V_function ->
           rd_pathParams routeData = None
           /\ In (["validation"; "error"],
               "Using a Joi.function for a params is not supported and has been removed.")
             entries).
Proof.
  assert (Hin : In functionRoute [functionRoute]) by (left; reflexivity).
  split; [exact Hin|].
  exact (C5_function_validators_replaced settings [functionRoute]
           functionRoute Hin).
Defined.

Lemma C6_witness :
  exists path method op w',
    buildOne settings formRoute = (Ok (path, method, op), w')
    /\ exists payload pathS headerS queryS w1 w2 w3 w4,
         buildPayload settings (fst (toRouteData settings formRoute)) path start
         = (Ok payload, w1)
         /\ buildPathParams (fst (toRouteData settings formRoute)) path w1
            = (Ok pathS, w2)
         /\ buildHeaderParams (fst (toRouteData settings formRoute)) path w2
            = (Ok headerS, w3)
         /\ buildQueryParams (fst (toRouteData settings formRoute)) path w3
            = (Ok queryS, w4)
         /\ op_parameters op
            = prune_list
                (Some (keptHeaders settings (parameters headerS)
                       ++ parameters pathS
                       ++ parameters queryS
                       ++ parameters (fst payload))).
Proof.
  do 4 eexists.
  split; [vm_compute; reflexivity|].
  eapply (C6_parameter_order settings
            (fst (toRouteData settings formRoute)) start).
  vm_compute; reflexivity.
Defined.

Lemma C7_witness :
  exists op parameters param,
    emitted (build settings [formRoute]) "/person/:id" "post" = Some op
    /\ op_parameters op = Some parameters
    /\ In param parameters
    /\ p_in param = "header"
    /\ toLowerCase (p_name param) = "content-type"
    /\ op_consumes op = None.
Proof.
  do 3 eexists.
  split; [vm_compute; reflexivity|].
  split; [reflexivity|].
  split; [left; reflexivity|].
  split; [reflexivity|].
  split; [reflexivity|].
  eapply (C7_content_type_header_drops_consumes settings [formRoute]
            "/person/:id" "post");
    [vm_compute; reflexivity | reflexivity
     | left; reflexivity | reflexivity | reflexivity].
Defined.


Lemma C10_witness :
  exists built w' op1 op2,
    forEach (buildRoute settings)
      (map (fun r => fst (toRouteData settings r))
         [route "/item" "get"; linesFreeRoute])
      (emptyDefs, []) = (Ok built, w')
    /\ built = [] ++ ("/item", "get", op1) :: [] ++ ("/item", "get", op2) :: []
    /\ op1 <> op2
    /\ exists swagger,
         buildRoutes settings
           (map (fun r => fst (toRouteData settings r))
              [route "/item" "get"; linesFreeRoute]) []
         = (Ok swagger, snd w')
         /\ sw_defs swagger = fst w'
         /\ operationAt (sw_paths swagger) "/item" "get" = Some op2.
Proof.
  do 4 eexists.
  split; [vm_compute; reflexivity|].
  split; [reflexivity|].
  split; [discriminate|].
  eapply (C10_last_write_wins settings
            (map (fun r => fst (toRouteData settings r))
               [route "/item" "get"; linesFreeRoute])
            [] _ _ [] [] [] "/item" "get");
    [vm_compute; reflexivity | reflexivity | constructor].
Defined.


(** ** Further runs *)

Lemma cleanPathParameters_first_marker_witness :
  includes "?}" "/item/{id" = false
  /\ cleanPathParameters ("/item/{id" +:+ "?}" +:+ "/{part?}")
     = "/item/{id" +:+ "}" +:+ "/{part?}"
  /\ cleanPathParameters "/item/{id" = "/item/{id".
Proof.
  split; [reflexivity|].
  apply (cleanPathParameters_first_marker "/item/{id" "/{part?}").
  reflexivity.
Defined.

Lemma build_returns_document_witness :
  Forall (fun r : SampleRoute =>
            isArray (r_description r) = false
            /\ placeholdersAccepted settings (fst (toRouteData settings r)))
         [colonRoute; braceRoute; flaggedRoute; functionRoute; childlessRoute]
  /\ exists swagger,
       fst (build settings
              [colonRoute; braceRoute; flaggedRoute; functionRoute;
               childlessRoute]) = Ok swagger.
Proof.
  assert (H : Forall (fun r : SampleRoute =>
                isArray (r_description r) = false
                /\ placeholdersAccepted settings
                     (fst (toRouteData settings r)))
              [colonRoute; braceRoute; flaggedRoute; functionRoute;
               childlessRoute]).
  { repeat constructor;
      intros defs item Hin Hreq; vm_compute in Hin;
      repeat (destruct Hin as [<-|Hin];
              [first [discriminate Hreq | eexists; vm_compute; reflexivity]|]);
      destruct Hin. }
  split; [exact H|].
  exact (build_returns_document settings _ H).
Defined.

Lemma build_throws_on_array_description_witness :
  In linesRoute [route "/health" "get"; linesRoute; formRoute]
  /\ isArray (r_description linesRoute) = true
  /\ exists e,
       fst (build settings [route "/health" "get"; linesRoute; formRoute])
       = Throw e.
Proof.
  assert (H1 : In linesRoute [route "/health" "get"; linesRoute; formRoute])
    by (right; left; reflexivity).
  split; [exact H1|]. split; [reflexivity|].
  exact (build_throws_on_array_description settings _ linesRoute H1 eq_refl).
Defined.

Lemma description_as_is_witness :
  exists path method op w',
    buildOne settings formRoute = (Ok (path, method, op), w')
    /\ isArray (rd_description (fst (toRouteData settings formRoute))) = false
    /\ op_description op = rd_description (fst (toRouteData settings formRoute)).
Proof.
  do 4 eexists. split; [vm_compute; reflexivity|]. split; [reflexivity|].
  eapply (description_as_is settings (fst (toRouteData settings formRoute))
            start);
    [vm_compute; reflexivity | reflexivity].
Defined.

Lemma deprecated_through_build_witness :
  exists path method op w',
    buildOne apiSettings metaRoute = (Ok (path, method, op), w')
    /\ op_deprecated op
       = if truthy (r_deprecated metaRoute) then r_deprecated metaRoute
         else js_undefined.
Proof.
  do 4 eexists. split; [vm_compute; reflexivity|].
  eapply (deprecated_through_build apiSettings metaRoute start).
  vm_compute; reflexivity.
Defined.

Lemma keys_through_build_witness :
  exists path method op w',
    buildOne apiSettings metaRoute = (Ok (path, method, op), w')
    /\ path = "/items"
    /\ method = "get"
    /\ op_operationId op = "get/api/items"
    /\ (path = removeBasePath
                 (replaceInPath (r_path metaRoute) ["endpoints"]
                                (st_pathReplacements apiSettings))
                 (st_basePath apiSettings) (st_pathReplacements apiSettings)
        /\ method = toLowerCase (r_method metaRoute)
        /\ op_operationId op
           = if truthy (r_id metaRoute) then default "" (r_id metaRoute)
             else createId (toUpperCase (r_method metaRoute))
                    (replaceInPath (r_path metaRoute) ["endpoints"]
                                   (st_pathReplacements apiSettings))).
Proof.
  do 4 eexists. split; [vm_compute; reflexivity|].
  split; [reflexivity|]. split; [reflexivity|]. split; [reflexivity|].
  eapply (keys_through_build apiSettings metaRoute start).
  vm_compute; reflexivity.
Defined.

Lemma tags_or_groups_witness :
  exists path method op w',
    buildOne apiSettings metaRoute = (Ok (path, method, op), w')
    /\ op_tags op = None
    /\ op_tags op
       = match rd_tags (fst (toRouteData apiSettings metaRoute)) with
         | Some [] => None
         | Some tags => Some tags
         | None =>
             prune_list (rd_groups (fst (toRouteData apiSettings metaRoute)))
         end.
Proof.
  do 4 eexists. split; [vm_compute; reflexivity|]. split; [reflexivity|].
  eapply (tags_or_groups apiSettings
            (fst (toRouteData apiSettings metaRoute)) start).
  vm_compute; reflexivity.
Defined.

Lemma order_through_build_witness :
  exists path method op w',
    buildOne apiSettings metaRoute = (Ok (path, method, op), w')
    /\ op_x_order op = js_undefined
    /\ op_x_order op
       = if truthy (r_order metaRoute) then r_order metaRoute
         else js_undefined.
Proof.
  do 4 eexists. split; [vm_compute; reflexivity|]. split; [reflexivity|].
  eapply (order_through_build apiSettings metaRoute start).
  vm_compute; reflexivity.
Defined.


Lemma produces_precedence_witness :
  exists path method op w',
    buildOne apiSettings metaRoute = (Ok (path, method, op), w')
    /\ st_acceptToProduce apiSettings <> js_bool true
    /\ op_produces op
       = match rd_produces (fst (toRouteData apiSettings metaRoute)),
               st_produces apiSettings with
         | Some perRoute, _ => prune_list (Some perRoute)
         | None, Some global => prune_list (Some global)
         | None, None => None
         end.
Proof.
  assert (Hflag : st_acceptToProduce apiSettings <> js_bool true)
    by discriminate.
  do 4 eexists. split; [vm_compute; reflexivity|]. split; [exact Hflag|].
  eapply (produces_precedence apiSettings
            (fst (toRouteData apiSettings metaRoute)) start);
    [vm_compute; reflexivity | exact Hflag].
Defined.

Lemma sample_attributes_in s :
  forall item, p_in (attributes s item) = p_in item.
Proof.
  induction s; intros item; simpl; try reflexivity; apply IHs.
Qed.

Lemma sample_fromProperties_in
    (tree : option (list (string * JoiSchema))) location params :
  fromProperties tree location = Some params ->
  Forall (fun param => p_in param = location) params.
Proof.
  destruct tree as [tree|]; simpl; [|discriminate].
  intros H. inversion H; subst. clear H. unfold project.
  destruct (String.eqb location "body") eqn:E.
  - apply String.eqb_eq in E. subst. repeat constructor.
  - apply Forall_forall. intros param Hin. apply list_elem_of_In in Hin.
    apply in_map_iff in Hin as (kv & <- & _).
    rewrite sample_attributes_in. reflexivity.
Qed.

Lemma parameters_by_location_witness :
  (forall tree location params,
     fromProperties tree location = Some params ->
     Forall (fun param => p_in param = location) params)
  /\ exists path method op w',
       buildOne settings formRoute = (Ok (path, method, op), w')
       /\ exists headers paths queries payloads,
            op_parameters op
            = prune_list (Some (headers ++ paths ++ queries ++ payloads))
            /\ Forall (fun param => p_in param = "header") headers
            /\ Forall (fun param => p_in param = "path") paths
            /\ Forall (fun param => p_in param = "query") queries
            /\ Forall (fun param =>
                         p_in param = "body" \/ p_in param = "formData")
                      payloads.
Proof.
  split; [exact sample_fromProperties_in|].
  do 4 eexists. split; [vm_compute; reflexivity|].
  eapply (parameters_by_location sample_fromProperties_in settings
            (fst (toRouteData settings formRoute)) start).
  vm_compute; reflexivity.
Defined.


Lemma childless_schemas_are_logged_witness :
  exists path method op w',
    buildOne settings childlessRoute = (Ok (path, method, op), w')
    /\ snd w'
       = [parameterError "/search" "payload form-urlencoded";
          parameterError "/search" "params";
          parameterError "/search" "headers";
          parameterError "/search" "query"]
    /\ ((forall j,
           rd_pathParams (fst (toRouteData settings childlessRoute)) = Some j ->
           hasChildren j = false ->
           In (parameterError path "params") (snd w'))
        /\ (forall j,
              rd_headerParams (fst (toRouteData settings childlessRoute))
              = Some j ->
              hasChildren j = false ->
              In (parameterError path "headers") (snd w'))
        /\ (forall j,
              rd_queryParams (fst (toRouteData settings childlessRoute))
              = Some j ->
              hasChildren j = false ->
              In (parameterError path "query") (snd w'))
        /\ (forall j,
              rd_payloadParams (fst (toRouteData settings childlessRoute))
              = Some j ->
              hasChildren j = false ->
              String.eqb
                (toLowerCase
                   (effectivePayloadType settings
                      (fst (toRouteData settings childlessRoute))))
                "json" = false ->
              In (parameterError path "payload form-urlencoded") (snd w'))).
Proof.
  do 4 eexists. split; [vm_compute; reflexivity|]. split; [reflexivity|].
  eapply (childless_schemas_are_logged settings
            (fst (toRouteData settings childlessRoute)) start).
  vm_compute; reflexivity.
Defined.

Lemma document_holds_last_per_key_witness :
  exists built w',
    forEach (buildRoute settings)
      (map (fun r => fst (toRouteData settings r))
         [route "/item" "get"; route "/item" "post"; linesFreeRoute])
      (emptyDefs, []) = (Ok built, w')
    /\ length built = 3
    /\ exists swagger,
         buildRoutes settings
           (map (fun r => fst (toRouteData settings r))
              [route "/item" "get"; route "/item" "post"; linesFreeRoute]) []
         = (Ok swagger, snd w')
         /\ forall path method op,
              operationAt (sw_paths swagger) path method = Some op
              <-> exists earlier later,
                    built = earlier ++ (path, method, op) :: later
                    /\ Forall (fun b => ~ sameKey path method b) later.
Proof.
  do 2 eexists. split; [vm_compute; reflexivity|]. split; [reflexivity|].
  eapply (document_holds_last_per_key settings
            (map (fun r => fst (toRouteData settings r))
               [route "/item" "get"; route "/item" "post"; linesFreeRoute])
            []).
  vm_compute; reflexivity.
Defined.

Lemma route_without_validation_witness :
  rd_queryParams (fst (toRouteData settings (route "/health" "get"))) = None
  /\ rd_pathParams (fst (toRouteData settings (route "/health" "get"))) = None
  /\ rd_headerParams (fst (toRouteData settings (route "/health" "get"))) = None
  /\ rd_payloadParams (fst (toRouteData settings (route "/health" "get")))
     = None
  /\ isArray (rd_description
                (fst (toRouteData settings (route "/health" "get")))) = false
  /\ exists op,
       buildRoute settings (fst (toRouteData settings (route "/health" "get")))
         start
       = (Ok (removeBasePath
                (rd_path (fst (toRouteData settings (route "/health" "get"))))
                (st_basePath settings) (st_pathReplacements settings),
              toLowerCase
                (rd_method (fst (toRouteData settings (route "/health" "get")))),
              op),
          (snd (responses_build
                  (rd_responses
                     (fst (toRouteData settings (route "/health" "get"))))
                  (rd_responseSchema
                     (fst (toRouteData settings (route "/health" "get"))))
                  (rd_responseStatus
                     (fst (toRouteData settings (route "/health" "get"))))
                  true false (fst start)),
           snd start))
       /\ op_parameters op = None.
Proof.
  repeat (split; [reflexivity|]).
  apply (route_without_validation settings
           (fst (toRouteData settings (route "/health" "get"))) start);
    reflexivity.
Defined.
